(** * Ames housing notebook: the train / persist / predict wrapper

    A shallow embedding of the Python cells of
    [ai-hub-fairing-xgboost-example.ipynb]: [read_input], [train_model],
    [eval_model], [save_model], [upload_file_to_gcs],
    [download_file_from_gcs] and the class [HousingServe].

    The notebook is glue code over pandas, scikit-learn, XGBoost, joblib and
    the cloud-storage client.  The numerical kernels of those libraries
    (the median of a column, boosted-tree fitting, pickling, CSV parsing) are
    interfaces here (type classes); what the libraries do around them, and
    that the notebook relies on (row filtering, column selection, the
    unshuffled split, the imputer's fill-and-drop), is written out. *)

From Stdlib Require Import QArith Qround.
From stdpp Require Import gmap strings list fin_maps.

Set Default Proof Using "Type".
Open Scope string_scope.

(** ** Exceptions and results *)

Inductive exn : Type :=
  | KeyError            (* a column label that the frame does not have *)
  | ValueError          (* sklearn / numpy / xgboost input validation *)
  | IndexError          (* [ndarray.item] out of range *)
  | FileNotFoundError   (* a local path that does not exist *)
  | ParserError         (* pandas could not parse the file *)
  | UnpicklingError     (* joblib could not rebuild an object *)
  | XGBoostError        (* the booster refused the training data *)
  | ClientError         (* no storage client could be created *)
  | NotFound.           (* the bucket or the blob does not exist *)

Inductive Result (A : Type) : Type :=
  | Ok (a : A)
  | Raise (e : exn).
Arguments Ok {A} a.
Arguments Raise {A} e.

Definition rbind {A B} (r : Result A) (k : A -> Result B) : Result B :=
  match r with
  | Ok a => k a
  | Raise e => Raise e
  end.

Declare Scope py_scope.
Delimit Scope py_scope with py.
Notation "x <- e ;; k" := (rbind e (fun x => k))
  (at level 100, e at next level, right associativity) : py_scope.

(** ** numpy: floats and the median

    [num] is the type of the float values that are not NaN; a cell of a float
    array is an [option num], with [None] for NaN.  [median] is [numpy.median]
    on a non-empty sequence of such values.

    Where the count of rows depends on a float product, the float is the
    rational it stands for and [fl] rounds an exact result to the float that
    the operation returns.  Rounding keeps the order, is exact on the
    integers that occur (row counts) and does not take a positive product of
    a fraction and a row count to zero. *)

Class Numpy : Type := {
  num : Type;
  median : list num -> num;
  fl : Q -> Q;
  fl_mono : forall x y, (x <= y)%Q -> (fl x <= fl y)%Q;
  fl_int : forall k : Z, (fl (inject_Z k) == inject_Z k)%Q;
  fl_pos : forall x, (0 < x)%Q -> (0 < fl x)%Q
}.

Section DataLoader.
Context `{Numpy}.

(** ** pandas: data frames *)

Inductive dtype : Type := int64 | float64 | bool_ | object.

Definition dtype_eqb (a b : dtype) : bool :=
  match a, b with
  | int64, int64 | float64, float64 | bool_, bool_ | object, object => true
  | _, _ => false
  end.

(** A cell of a frame: NaN (missing), a number, or a Python string (these
    live in [object] columns). *)
Inductive cell : Type :=
  | NaN
  | Num (x : num)
  | Str (s : string).

Definition isna (c : cell) : bool :=
  match c with NaN => true | _ => false end.

(** A frame is a header (label and dtype of each column; [read_csv] makes the
    labels distinct) and the rows under it, one cell per column. *)
Record DataFrame : Type := {
  columns : list (string * dtype);
  rows : list (list cell)
}.

Fixpoint get_loc (label : string) (cols : list (string * dtype)) : option nat :=
  match cols with
  | [] => None
  | (l, _) :: cols' =>
      if String.eqb l label then Some 0 else S <$> get_loc label cols'
  end.

Definition at_col (j : nat) (r : list cell) : cell := nth j r NaN.

(** [data.dropna(axis=0, subset=[label], inplace=True)] *)
Definition dropna (label : string) (data : DataFrame) : Result DataFrame :=
  match get_loc label (columns data) with
  | None => Raise KeyError
  | Some j =>
      Ok {| columns := columns data;
            rows := List.filter (fun r => negb (isna (at_col j r))) (rows data) |}
  end.

(** [data.SalePrice], then [.values] *)
Definition getattr_values (label : string) (data : DataFrame) : Result (list cell) :=
  match get_loc label (columns data) with
  | None => Raise KeyError
  | Some j => Ok (map (at_col j) (rows data))
  end.

(** Keeps the positions of [l] where [keep] is true. *)
Fixpoint compress {A} (keep : list bool) (l : list A) : list A :=
  match keep, l with
  | k :: keep', x :: l' =>
      if k then x :: compress keep' l' else compress keep' l'
  | _, _ => []
  end.

Definition take_columns (keep : list bool) (data : DataFrame) : DataFrame :=
  {| columns := compress keep (columns data);
     rows := map (compress keep) (rows data) |}.

(** [data.drop([label], axis=1)] *)
Definition drop (label : string) (data : DataFrame) : Result DataFrame :=
  match get_loc label (columns data) with
  | None => Raise KeyError
  | Some _ =>
      Ok (take_columns
            (map (fun c => negb (String.eqb (fst c) label)) (columns data)) data)
  end.

(** [data.select_dtypes(exclude=[t])] *)
Definition select_dtypes_exclude (t : dtype) (data : DataFrame) : DataFrame :=
  take_columns (map (fun c => negb (dtype_eqb (snd c) t)) (columns data)) data.

(** [X.values]: the rows as a two-dimensional array. *)
Definition values (data : DataFrame) : list (list cell) := rows data.

(** ** sklearn.model_selection.train_test_split, [shuffle=False] *)

(** [test_size] is a float (the held-out fraction) or an int (the number of
    held-out rows). *)
Inductive size_spec : Type :=
  | Fraction (q : Q)
  | Count (k : Z).

(** [_validate_shuffle_split(n_samples, test_size, train_size=None)] *)
Definition validate_shuffle_split (n_samples : nat) (test_size : size_spec)
  : Result (nat * nat) :=
  let ok_range :=
    match test_size with
    | Fraction q => negb (Qle_bool q 0 || Qle_bool 1 q)
    | Count k => negb ((Z.of_nat n_samples <=? k)%Z || (k <=? 0)%Z)
    end in
  if negb ok_range then Raise ValueError else
  let n_test :=
    match test_size with
    | Fraction q => Z.to_nat (Qceiling (fl (q * inject_Z (Z.of_nat n_samples))))
    | Count k => Z.to_nat k
    end in
  let n_train := (n_samples - n_test)%nat in
  if Nat.eqb n_train 0 then Raise ValueError else Ok (n_train, n_test).

(** [train = arange(n_train)], [test = arange(n_train, n_train + n_test)] *)
Definition train_rows {A} (n_train : nat) (a : list A) : list A := take n_train a.
Definition test_rows {A} (n_train n_test : nat) (a : list A) : list A :=
  take n_test (List.skipn n_train a).

Definition train_test_split {A B} (X : list A) (y : list B) (test_size : size_spec)
  : Result (list A * list A * list B * list B) :=
  if negb (Nat.eqb (length X) (length y)) then Raise ValueError else
  (n <- validate_shuffle_split (length X) test_size ;;
   let '(n_train, n_test) := n in
   Ok (train_rows n_train X, test_rows n_train n_test X,
       train_rows n_train y, test_rows n_train n_test y))%py.

(** ** sklearn.impute.SimpleImputer, [strategy="median"] *)

Definition ndarray : Type := list (list (option num)).

Definition to_float (c : cell) : Result (option num) :=
  match c with
  | NaN => Ok None
  | Num x => Ok (Some x)
  | Str _ => Raise ValueError
  end.

Fixpoint mapM {A B} (f : A -> Result B) (l : list A) : Result (list B) :=
  match l with
  | [] => Ok []
  | x :: l' => (y <- f x ;; ys <- mapM f l' ;; Ok (y :: ys))%py
  end.

Definition n_cols {A} (X : list (list A)) : nat := length (hd [] X).

(** [check_array(X, dtype=FLOAT_DTYPES, force_all_finite="allow-nan")]: at
    least one sample and one feature, every entry convertible to float. *)
Definition check_array (X : list (list cell)) : Result ndarray :=
  if Nat.eqb (length X) 0 || Nat.eqb (n_cols X) 0 then Raise ValueError
  else mapM (mapM to_float) X.

(** The observed (non-NaN) values of column [j]. *)
Definition observed (j : nat) (X : ndarray) : list num :=
  omap (fun r => nth j r None) X.

Definition column_median (j : nat) (X : ndarray) : option num :=
  match observed j X with
  | [] => None
  | vs => Some (median vs)
  end.

Record SimpleImputer : Type := {
  strategy : string;
  statistics_ : list (option num)
}.

(** [imputer.fit(X)]: one statistic per column, NaN for a column without an
    observed value. *)
Definition fit (imputer : SimpleImputer) (X : list (list cell)) : Result SimpleImputer :=
  (Xf <- check_array X ;;
   Ok {| strategy := strategy imputer;
         statistics_ := map (fun j => column_median j Xf) (seq 0 (n_cols Xf)) |})%py.

(** One row of [transform]: a column whose statistic is NaN is dropped, a
    missing entry of another column is replaced by the statistic. *)
Fixpoint impute_row (stats row : list (option num)) : list (option num) :=
  match stats, row with
  | s :: stats', c :: row' =>
      match s with
      | None => impute_row stats' row'
      | Some m =>
          (match c with None => Some m | Some v => Some v end) :: impute_row stats' row'
      end
  | _, _ => []
  end.

(** [imputer.transform(X)] *)
Definition transform (imputer : SimpleImputer) (X : list (list cell)) : Result ndarray :=
  (Xf <- check_array X ;;
   if negb (Nat.eqb (n_cols Xf) (length (statistics_ imputer))) then Raise ValueError
   else Ok (map (impute_row (statistics_ imputer)) Xf))%py.

Definition fit_transform (imputer : SimpleImputer) (X : list (list cell))
  : Result (SimpleImputer * ndarray) :=
  (imputer' <- fit imputer X ;;
   Xt <- transform imputer' X ;;
   Ok (imputer', Xt))%py.

End DataLoader.

(** ** The other libraries, as interfaces *)

Definition bytes : Type := string.

(** pandas' CSV parser, from the contents of a file to a frame. *)
Class Pandas `{Numpy} : Type := {
  parse_csv : bytes -> Result DataFrame
}.

(** XGBoost: [XGBRegressor] is a regressor object; [xgb_fit] is
    [XGBRegressor(n_estimators, learning_rate).fit(X, y, early_stopping_rounds,
    eval_set)]; a fitted regressor scores each row on its own. *)
Class XGBoost `{Numpy} : Type := {
  XGBRegressor : Type;
  xgb_fit : nat -> Q -> ndarray -> list cell -> nat ->
            list (ndarray * list cell) -> Result XGBRegressor;
  best_score : XGBRegressor -> num;
  best_iteration : XGBRegressor -> nat;
  n_features : XGBRegressor -> nat;
  predict_row : XGBRegressor -> list (option num) -> num
}.

(** [sklearn.metrics.mean_absolute_error] *)
Class Metrics `{Numpy} : Type := {
  mean_absolute_error : list num -> list cell -> Result num
}.

(** joblib's pickling of a regressor and its inverse. *)
Class Joblib `{XGBoost} : Type := {
  dumps : XGBRegressor -> bytes;
  loads : bytes -> Result XGBRegressor
}.

(** ** The process: local files, the object store, what was done *)

Inductive message `{Numpy} : Type :=
  | MsgBestRMSE (score : num) (rounds : nat)
  | MsgMAE (mae : num)
  | MsgExport (model_file : string)
  | MsgUploaded (source bucket destination : string)
  | MsgDownloaded (bucket source destination : string).

Inductive event `{Numpy} : Type :=
  | Opened (path : string)             (* a local file was read *)
  | Written (path : string)            (* a local file was written *)
  | Removed (path : string)            (* a local file was deleted *)
  | BlobPut (bucket key : string)      (* an object was stored in a bucket *)
  | BlobGet (bucket key : string)      (* an object was fetched from a bucket *)
  | Said (m : message).                (* [print] or [logging.info] *)

(** [fs] holds the local files.  [unwritable] holds the paths that cannot be
    opened for writing, each with what [open] raises there
    ([FileNotFoundError] for a path in a directory that does not exist).
    [gcs] is [None] when no storage client can be made (the name [storage]
    is unbound, or there are no credentials); otherwise it maps a bucket name
    to the objects of the bucket.  [trace] is in order of time. *)
Record World `{Numpy} : Type := {
  fs : gmap string bytes;
  unwritable : gmap string exn;
  gcs : option (gmap string (gmap string bytes));
  trace : list event
}.

(** State and exceptions: what was done before an exception stays done. *)
Definition M (S A : Type) : Type := S -> Result A * S.

Definition ret {S A} (a : A) : M S A := fun s => (Ok a, s).

Definition bind {S A B} (m : M S A) (k : A -> M S B) : M S B :=
  fun s =>
    match m s with
    | (Ok a, s') => k a s'
    | (Raise e, s') => (Raise e, s')
    end.

Definition lift {S A} (r : Result A) : M S A := fun s => (r, s).

Declare Scope io_scope.
Delimit Scope io_scope with io.
Notation "x <- e ;; k" := (bind e (fun x => k))
  (at level 100, e at next level, right associativity) : io_scope.

Section Notebook.
Context `{Numpy} `{!Pandas} `{!XGBoost} `{!Metrics} `{!Joblib}.
(** [fairing.cloud.gcp.guess_project_name()] *)
Variable GCP_PROJECT : string.

Definition emit (e : event) : M World unit :=
  fun w => (Ok tt, {| fs := fs w; unwritable := unwritable w; gcs := gcs w;
                      trace := trace w ++ [e] |}).

(** [pd.read_csv(file_name)] *)
Definition read_csv (file_name : string) : M World DataFrame :=
  fun w =>
    match fs w !! file_name with
    | None => (Raise FileNotFoundError, w)
    | Some b =>
        (parse_csv b,
         {| fs := fs w; unwritable := unwritable w; gcs := gcs w;
            trace := trace w ++ [Opened file_name] |})
    end.

(** [def read_input(file_name, test_size=0.25)] *)
Definition read_input (file_name : string) (test_size : option size_spec)
  : M World ((ndarray * list cell) * (ndarray * list cell) * SimpleImputer) :=
  let test_size := default (Fraction (1 # 4)) test_size in
  (data <- read_csv file_name ;;
   data <- lift (dropna "SalePrice" data) ;;
   y <- lift (getattr_values "SalePrice" data) ;;
   X <- lift (drop "SalePrice" data) ;;
   let X := select_dtypes_exclude object X in
   s <- lift (train_test_split (values X) y test_size) ;;
   let '(train_X, test_X, train_y, test_y) := s in
   let imputer := {| strategy := "median"; statistics_ := [] |} in
   ft <- lift (fit_transform imputer train_X) ;;
   let '(imputer, train_X) := ft in
   test_X <- lift (transform imputer test_X) ;;
   ret ((train_X, train_y), (test_X, test_y), imputer))%io.

(** A two-dimensional array as it is handed to a model: numpy keeps the
    number of columns, [X.shape[1]], also of an array without rows. *)
Record array : Type := {
  shape1 : nat;
  data : ndarray
}.

(** An array of at least one row, from its rows. *)
Definition asarray (X : ndarray) : array := {| shape1 := n_cols X; data := X |}.

(** [model.predict(X)]: the booster checks the number of columns of [X], then
    scores every row. *)
Definition xgb_predict (model : XGBRegressor) (X : array) : Result (list num) :=
  if Nat.eqb (shape1 X) (n_features model)
     && forallb (fun r => Nat.eqb (length r) (n_features model)) (data X)
  then Ok (map (predict_row model) (data X))
  else Raise ValueError.

Definition train_model (train_X : ndarray) (train_y : list cell)
    (test_X : ndarray) (test_y : list cell)
    (n_estimators : nat) (learning_rate : Q) : M World XGBRegressor :=
  (model <- lift (xgb_fit n_estimators learning_rate train_X train_y
                          40 [(test_X, test_y)]) ;;
   _ <- emit (Said (MsgBestRMSE (best_score model) (best_iteration model + 1))) ;;
   ret model)%io.

Definition eval_model (model : XGBRegressor) (test_X : ndarray) (test_y : list cell)
  : M World unit :=
  (predictions <- lift (xgb_predict model (asarray test_X)) ;;
   mae <- lift (mean_absolute_error predictions test_y) ;;
   emit (Said (MsgMAE mae)))%io.

(** [joblib.dump(model, model_file)]: opens the file for writing, which can
    raise, and then nothing is written. *)
Definition joblib_dump (model : XGBRegressor) (model_file : string) : M World unit :=
  fun w =>
    match unwritable w !! model_file with
    | Some e => (Raise e, w)
    | None =>
        (Ok tt, {| fs := <[model_file := dumps model]> (fs w);
                   unwritable := unwritable w; gcs := gcs w;
                   trace := trace w ++ [Written model_file] |})
    end.

(** [joblib.load(model_file)] *)
Definition joblib_load (model_file : string) : M World XGBRegressor :=
  fun w =>
    match fs w !! model_file with
    | None => (Raise FileNotFoundError, w)
    | Some b =>
        (loads b,
         {| fs := fs w; unwritable := unwritable w; gcs := gcs w;
            trace := trace w ++ [Opened model_file] |})
    end.

Definition save_model (model : XGBRegressor) (model_file : string) : M World unit :=
  (_ <- joblib_dump model model_file ;;
   emit (Said (MsgExport model_file)))%io.

Definition GCS_BUCKET_ID : string := GCP_PROJECT ++ "-fairing-xgboost-demo".

(** [storage.Client()] *)
Definition storage_Client : M World (gmap string (gmap string bytes)) :=
  fun w =>
    match gcs w with
    | None => (Raise ClientError, w)
    | Some buckets => (Ok buckets, w)
    end.

(** [storage_client.get_bucket(bucket_name)] *)
Definition get_bucket (buckets : gmap string (gmap string bytes)) (bucket_name : string)
  : M World (gmap string bytes) :=
  lift (match buckets !! bucket_name with
        | None => Raise NotFound
        | Some objects => Ok objects
        end).

(** [bucket.blob(key).upload_from_filename(source_file_name)]: reads the
    local file, then stores it. *)
Definition upload_from_filename (bucket_name key source_file_name : string)
  : M World unit :=
  fun w =>
    match fs w !! source_file_name, gcs w with
    | None, _ => (Raise FileNotFoundError, w)
    | Some _, None => (Raise ClientError, w)
    | Some b, Some buckets =>
        (Ok tt,
         {| fs := fs w;
            unwritable := unwritable w;
            gcs := Some (<[bucket_name :=
                     <[key := b]> (default ∅ (buckets !! bucket_name))]> buckets);
            trace := trace w ++ [Opened source_file_name;
                                 BlobPut bucket_name key] |})
    end.

(** [bucket.blob(key).download_to_filename(destination_file_name)]: opens the
    destination for writing, which can raise, before it asks for the object;
    when the object is not there it deletes the destination and raises. *)
Definition download_to_filename (bucket_name key destination_file_name : string)
  : M World unit :=
  fun w =>
    match unwritable w !! destination_file_name with
    | Some e => (Raise e, w)
    | None =>
        match gcs w with
        | None => (Raise ClientError, w)
        | Some buckets =>
            match buckets !! bucket_name ≫= (.!! key) with
            | None =>
                (Raise NotFound,
                 {| fs := delete destination_file_name (fs w);
                    unwritable := unwritable w; gcs := gcs w;
                    trace := trace w ++ [Written destination_file_name;
                                         Removed destination_file_name] |})
            | Some b =>
                (Ok tt,
                 {| fs := <[destination_file_name := b]> (fs w);
                    unwritable := unwritable w; gcs := gcs w;
                    trace := trace w ++ [BlobGet bucket_name key;
                                         Written destination_file_name] |})
            end
        end
    end.

Definition upload_file_to_gcs (bucket_name source_file_name destination_file_name : string)
  : M World unit :=
  (storage_client <- storage_Client ;;
   bucket <- get_bucket storage_client bucket_name ;;
   _ <- upload_from_filename bucket_name destination_file_name source_file_name ;;
   emit (Said (MsgUploaded source_file_name bucket_name destination_file_name)))%io.

Definition download_file_from_gcs (bucket_name source_file_name destination_file_name : string)
  : M World unit :=
  (storage_client <- storage_Client ;;
   bucket <- get_bucket storage_client bucket_name ;;
   _ <- download_to_filename bucket_name source_file_name destination_file_name ;;
   emit (Said (MsgDownloaded bucket_name source_file_name destination_file_name)))%io.

(** ** class HousingServe *)

Record HousingServe : Type := {
  train_input : string;
  n_estimators : nat;
  learning_rate : Q;
  model_file : string;
  trained_model : option XGBRegressor
}.

Definition __init__ : HousingServe :=
  {| train_input := "ames_dataset/train.csv";
     n_estimators := 50;
     learning_rate := 1 # 10;
     model_file := "trained_ames_model.dat";
     trained_model := None |}.

(** [train] reads [self] and leaves it as it is. *)
Definition train (self : HousingServe) : M World unit :=
  (d <- read_input (train_input self) None ;;
   let '((train_X, train_y), (test_X, test_y), _) := d in
   model <- train_model train_X train_y test_X test_y
                        (n_estimators self) (learning_rate self) ;;
   _ <- eval_model model test_X test_y ;;
   _ <- save_model model (model_file self) ;;
   upload_file_to_gcs GCS_BUCKET_ID (model_file self) (model_file self))%io.

(** A method that assigns to an attribute of [self] runs on the object and the
    world together. *)
Definition in_world {A} (m : M World A) : M (HousingServe * World) A :=
  fun s => let (r, w') := m (snd s) in (r, (fst s, w')).

Definition get_self : M (HousingServe * World) HousingServe :=
  fun s => (Ok (fst s), s).

Definition set_trained_model (m : XGBRegressor) : M (HousingServe * World) unit :=
  fun s =>
    (Ok tt,
     ({| train_input := train_input (fst s);
         n_estimators := n_estimators (fst s);
         learning_rate := learning_rate (fst s);
         model_file := model_file (fst s);
         trained_model := Some m |}, snd s)).

(** [prediction.item(i)] *)
Definition item (i : nat) (a : list num) : Result num :=
  match a !! i with
  | Some x => Ok x
  | None => Raise IndexError
  end.

(** A regressor object is truthy (its class defines neither [__bool__] nor
    [__len__]), so [not self.trained_model] holds exactly when the attribute
    is [None]. *)
Definition predict (X : array) (feature_names : list string)
  : M (HousingServe * World) (list (list num)) :=
  (self <- get_self ;;
   model <- match trained_model self with
            | None =>
                m <- in_world (joblib_load (model_file self)) ;;
                _ <- set_trained_model m ;;
                ret m
            | Some m => ret m
            end ;;
   prediction <- lift (xgb_predict model X) ;;
   a <- lift (item 0 prediction) ;;
   b <- lift (item 0 prediction) ;;
   ret [[a; b]])%io.

End Notebook.

(** ** Vocabulary of the properties

    What the properties below speak of, in terms of the frame that
    [read_csv] returned: the rows that have a target, their targets, and the
    feature cells of a row. *)

Section Vocabulary.
Context `{Numpy}.

Definition target (data : DataFrame) (r : list cell) : cell :=
  match get_loc "SalePrice" (columns data) with
  | Some j => at_col j r
  | None => NaN
  end.

(** The rows whose [SalePrice] is present, in the order of the file. *)
Definition labelled (data : DataFrame) : list (list cell) :=
  List.filter (fun r => negb (isna (target data r))) (rows data).

Definition targets (data : DataFrame) : list cell :=
  map (target data) (labelled data).

(** A column is a feature when it is not the target and not of dtype
    [object]. *)
Definition is_feature (c : string * dtype) : bool :=
  negb (String.eqb (fst c) "SalePrice") && negb (dtype_eqb (snd c) object).

Definition feature_columns (data : DataFrame) : list (string * dtype) :=
  List.filter is_feature (columns data).

Definition features (data : DataFrame) : list (list cell) :=
  map (compress (map is_feature (columns data))) (labelled data).

(** Python's [round] on a float: to the nearest integer, a tie to the even
    one. *)
Definition round (q : Q) : Z :=
  let f := Qfloor q in
  match Qcompare (q - inject_Z f)%Q (1 # 2) with
  | Lt => f
  | Gt => (f + 1)%Z
  | Eq => if Z.even f then f else (f + 1)%Z
  end.

Definition unfitted : SimpleImputer := {| strategy := "median"; statistics_ := [] |}.

(** The events that change a local file or a bucket. *)
Definition is_write (e : event) : bool :=
  match e with
  | Written _ | Removed _ | BlobPut _ _ => true
  | _ => false
  end.

(** A row as [read_csv] builds it: one cell per column, a string only in a
    column of dtype [object]. *)
Fixpoint cells_ok (cols : list (string * dtype)) (r : list cell) : bool :=
  match cols, r with
  | [], [] => true
  | c :: cols', x :: r' =>
      (match x with Str _ => dtype_eqb (snd c) object | _ => true end)
      && cells_ok cols' r'
  | _, _ => false
  end.

Definition well_formed (data : DataFrame) : bool :=
  forallb (cells_ok (columns data)) (rows data).

(** [read_input] after the file is parsed, in the terms above. *)
Definition split_and_impute (data : DataFrame) (test_size : size_spec)
  : Result ((ndarray * list cell) * (ndarray * list cell) * SimpleImputer) :=
  match get_loc "SalePrice" (columns data) with
  | None => Raise KeyError
  | Some _ =>
      (n <- validate_shuffle_split (length (labelled data)) test_size ;;
       let '(n_train, n_test) := n in
       imputer <- fit unfitted (take n_train (features data)) ;;
       train_X <- transform imputer (take n_train (features data)) ;;
       test_X <- transform imputer (List.skipn n_train (features data)) ;;
       Ok ((train_X, take n_train (targets data)),
           (test_X, List.skipn n_train (targets data)), imputer))%py
  end.

(** The world after a local file was read. *)
Definition opened (path : string) (w : World) : World :=
  {| fs := fs w; unwritable := unwritable w; gcs := gcs w;
     trace := trace w ++ [Opened path] |}.

(** The object stored under [key] in [bucket_name], if any. *)
Definition blob_at (w : World) (bucket_name key : string) : option bytes :=
  match gcs w with
  | None => None
  | Some buckets =>
      match buckets !! bucket_name with
      | None => None
      | Some objects => objects !! key
      end
  end.

(** A computation is quiet when it changes no local file and no bucket. *)
Definition quiet {A} (m : M World A) : Prop :=
  ∀ w, fs (snd (m w)) = fs w ∧ gcs (snd (m w)) = gcs w ∧
       unwritable (snd (m w)) = unwritable w ∧
       ∃ new, trace (snd (m w)) = (trace w ++ new)%list ∧
              Forall (λ e, is_write e = false) new.

End Vocabulary.

(** [numpy.isfinite] on a float that is not NaN.  sklearn's input check
    refuses an infinite value; the cells above do not tell one from a finite
    value, so a statement that [read_input] returns asks for [all_finite]. *)
Class Finite `{Numpy} : Type := { isfinite : num -> bool }.

Definition all_finite `{Finite} (X : list (list cell)) : bool :=
  forallb (forallb (fun c => match c with Num x => isfinite x | _ => true end)) X.

(** Calls on one [HousingServe] object, with whatever else happens to the
    files and buckets between two calls.  An exception ends a call, not the
    object. *)
Section Lifetime.
Context `{Numpy} `{!Pandas} `{!XGBoost} `{!Metrics} `{!Joblib}.
Variable GCP_PROJECT : string.

(** [train] up to the save: load, fit, evaluate. *)
Definition fitted_model (self : HousingServe) : M World XGBRegressor :=
  (d <- read_input (train_input self) None ;;
   let '((train_X, train_y), (test_X, test_y), _) := d in
   model <- train_model train_X train_y test_X test_y
                        (n_estimators self) (learning_rate self) ;;
   _ <- eval_model model test_X test_y ;;
   ret model)%io.

(** What [predict] returns from the scores of a regressor. *)
Definition first_pair (scores : Result (list num)) : Result (list (list num)) :=
  (prediction <- scores ;; a <- item 0 prediction ;; Ok [[a; a]])%py.

Inductive step : Type :=
  | CallTrain
  | CallPredict (X : array) (feature_names : list string)
  | Elsewhere (files : gmap string bytes)
              (buckets : option (gmap string (gmap string bytes))).

Definition is_train (st : step) : bool :=
  match st with CallTrain => true | _ => false end.

Definition exec (s : HousingServe * World) (st : step) : HousingServe * World :=
  match st with
  | CallTrain => (fst s, snd (train GCP_PROJECT (fst s) (snd s)))
  | CallPredict X feature_names => snd (predict X feature_names s)
  | Elsewhere files buckets =>
      (fst s, {| fs := files; unwritable := unwritable (snd s); gcs := buckets;
                 trace := trace (snd s) |})
  end.

Definition exec_all (steps : list step) (s : HousingServe * World)
  : HousingServe * World :=
  fold_left exec steps s.

End Lifetime.

(** ** A small instance, to run the definitions on

    Floats are rationals, a regressor is the number of its features and
    scores a row by the sum of its entries, a pickle is a string as long as
    that number. *)
Module Ames.
#[local] Open Scope Q_scope.

Fixpoint insert_sorted (x : Q) (l : list Q) : list Q :=
  match l with
  | [] => [x]
  | y :: l' => if Qle_bool x y then x :: l else y :: insert_sorted x l'
  end.

Definition sort (l : list Q) : list Q := foldr insert_sorted [] l.

Definition median_Q (l : list Q) : Q :=
  let s := sort l in
  let n := length s in
  if Nat.even n
  then Qred ((nth (n / 2 - 1)%nat s 0 + nth (n / 2)%nat s 0) / 2)
  else nth (n / 2)%nat s 0.

(** Exact arithmetic: nothing is rounded. *)
Definition numpy : Numpy :=
  {| num := Q; median := median_Q; fl := fun x => x;
     fl_mono := fun _ _ Hxy => Hxy;
     fl_int := fun k => Qeq_refl (inject_Z k);
     fl_pos := fun _ Hx => Hx |}.
#[local] Existing Instance numpy.

Definition frame : DataFrame :=
  {| columns := [("Id", int64); ("LotArea", float64); ("Street", object);
                 ("Alley", float64); ("SalePrice", int64)];
     rows := [ [Num 1; Num 8450; Str "Pave"; NaN; Num 208500];
               [Num 2; NaN;      Str "Pave"; NaN; Num 181500];
               [Num 3; Num 11250; Str "Grvl"; NaN; NaN];
               [Num 4; Num 9550; Str "Pave"; NaN; Num 140000];
               [Num 5; NaN;      Str "Pave"; Num 7; Num 250000];
               [Num 6; Num 14115; Str "Pave"; NaN; Num 143000] ] |}.

(** The same file with other feature values in its last labelled row. *)
Definition frame' : DataFrame :=
  {| columns := columns frame;
     rows := [ [Num 1; Num 8450; Str "Pave"; NaN; Num 208500];
               [Num 2; NaN;      Str "Pave"; NaN; Num 181500];
               [Num 3; Num 11250; Str "Grvl"; NaN; NaN];
               [Num 4; Num 9550; Str "Pave"; NaN; Num 140000];
               [Num 5; NaN;      Str "Pave"; Num 7; Num 250000];
               [Num 60; Num 1; Str "Grvl"; Num 99; Num 143000] ] |}.

Definition pandas : Pandas :=
  {| parse_csv := fun b =>
       if String.eqb b "ames" then Ok frame
       else if String.eqb b "ames'" then Ok frame'
       else Raise ParserError |}.

Definition row_sum (r : list (option Q)) : Q :=
  Qred (foldr (fun c acc => default 0 c + acc) 0 r).

Definition xgboost : XGBoost :=
  {| XGBRegressor := nat;
     xgb_fit := fun _ _ X _ _ _ => Ok (n_cols X);
     best_score := fun _ => 0;
     best_iteration := fun _ => 0%nat;
     n_features := fun m => m;
     predict_row := fun _ r => row_sum r |}.
#[local] Existing Instance xgboost.

Definition metrics : Metrics := {| mean_absolute_error := fun _ _ => Ok 0 |}.

Fixpoint pickle (n : nat) : string :=
  match n with
  | O => ""
  | S n' => "x" ++ pickle n'
  end.

Definition joblib : Joblib :=
  {| dumps := fun m => pickle m;
     loads := fun b => Ok (String.length b) |}.

Definition project : string := "demo".

(** A machine with the data set and a reachable object store holding the
    demo bucket. *)
Definition world : World :=
  {| fs := {[ "ames_dataset/train.csv" := "ames" ]};
     unwritable := {[ "nodir/model.dat" := FileNotFoundError ]};
     gcs := Some {[ "demo-fairing-xgboost-demo" := ∅ ]};
     trace := [] |}.

(** The same machine with no object store in reach. *)
Definition offline : World :=
  {| fs := fs world; unwritable := unwritable world; gcs := None; trace := [] |}.

(** A machine that holds a pickled two-feature regressor. *)
Definition serving : World :=
  {| fs := {[ "trained_ames_model.dat" := "xx" ]}; unwritable := ∅;
     gcs := None; trace := [] |}.

Definition two_rows : array :=
  {| shape1 := 2; data := [ [Some 1; Some 2]; [Some 3; Some 4] ] |}.

Definition csv : string := "ames_dataset/train.csv".

(** The machine with the other file in place of the data set. *)
Definition world' : World :=
  {| fs := {[ csv := "ames'" ]}; unwritable := unwritable world;
     gcs := gcs world; trace := [] |}.

(** What [read_input] returns on the two machines. *)
Definition train_X : ndarray :=
  [ [Some 1; Some 8450]; [Some 2; Some 9000]; [Some 4; Some 9550] ].
Definition train_y : list cell := [Num 208500; Num 181500; Num 140000].
Definition test_X : ndarray := [ [Some 5; Some 9000]; [Some 6; Some 14115] ].
Definition test_X' : ndarray := [ [Some 5; Some 9000]; [Some 60; Some 1] ].
Definition test_y : list cell := [Num 250000; Num 143000].
Definition imputer : SimpleImputer :=
  {| strategy := "median"; statistics_ := [Some 2; Some 9000; None] |}.

Definition after_read (w : World) : World :=
  {| fs := fs w; unwritable := unwritable w; gcs := gcs w;
     trace := [Opened csv] |}.

(** The offline machine after [train]: the model is on the disk, nothing
    went out. *)
Definition saved_offline : World :=
  {| fs := <[ "trained_ames_model.dat" := "xx" ]> (fs world);
     unwritable := unwritable world;
     gcs := None;
     trace := [Opened csv; Said (MsgBestRMSE 0 1); Said (MsgMAE 0);
               Written "trained_ames_model.dat";
               Said (MsgExport "trained_ames_model.dat")] |}.

(** A two-feature regressor, and an object that holds it. *)
Definition booster : XGBRegressor := 2%nat.

Definition warm : HousingServe :=
  {| train_input := csv; n_estimators := 50; learning_rate := 1 # 10;
     model_file := "trained_ames_model.dat"; trained_model := Some booster |}.

(** An object that holds an older, five-feature regressor, and a row of five
    columns for it. *)
Definition old_booster : XGBRegressor := 5%nat.

Definition stale : HousingServe :=
  {| train_input := csv; n_estimators := 50; learning_rate := 1 # 10;
     model_file := "trained_ames_model.dat"; trained_model := Some old_booster |}.

Definition five_wide : array :=
  {| shape1 := 5; data := [ [Some 1; Some 2; Some 3; Some 4; Some 5] ] |}.


(** A rational is finite. *)
Definition finite : Finite := {| isfinite := fun _ => true |}.

(** A file without a missing feature value, and a parser that yields it. *)
Definition full_frame : DataFrame :=
  {| columns := [("LotArea", float64); ("Street", object); ("SalePrice", int64)];
     rows := [ [Num 10; Str "Pave"; Num 100];
               [Num 20; Str "Pave"; Num 200];
               [Num 30; Str "Grvl"; Num 300];
               [Num 40; Str "Pave"; Num 400] ] |}.

Definition pandas_full : Pandas := {| parse_csv := fun _ => Ok full_frame |}.

Definition full_imputer : SimpleImputer :=
  {| strategy := "median"; statistics_ := [Some 20] |}.
Definition full_train_X : ndarray := [ [Some 10]; [Some 20]; [Some 30] ].
Definition full_train_y : list cell := [Num 100; Num 200; Num 300].
Definition full_test_X : ndarray := [ [Some 40] ].
Definition full_test_y : list cell := [Num 400].

End Ames.

(** * Properties *)

(** ** The split *)

Section SplitFacts.
Context `{Numpy}.

Lemma validate_shuffle_split_Ok n test_size n_train n_test :
  validate_shuffle_split n test_size = Ok (n_train, n_test) →
  n_train + n_test = n ∧ 0 < n_train ∧ 0 < n_test.
Proof.
  unfold validate_shuffle_split.
  destruct test_size as [q|k]; cbn beta iota.
  - destruct (Qle_bool q 0) eqn:Hq0; [discriminate|].
    destruct (Qle_bool 1 q) eqn:Hq1; [discriminate|]. cbn.
    destruct (Nat.eqb_spec
                (n - Z.to_nat (Qceiling (fl (q * inject_Z (Z.of_nat n))))) 0)
      as [|Hne]; [discriminate|].
    intros [= <- <-].
    assert (0 < q)%Q as Hpos.
    { apply Qnot_le_lt. intros Hle. apply Qle_bool_iff in Hle. congruence. }
    assert (0 < n) as Hn by lia.
    assert (0 < Qceiling (fl (q * inject_Z (Z.of_nat n))))%Z as Hceil.
    { assert (0 < fl (q * inject_Z (Z.of_nat n)))%Q as Hprod.
      { apply fl_pos, Qmult_lt_0_compat; [done|].
        change 0%Q with (inject_Z 0). rewrite <- Zlt_Qlt. lia. }
      pose proof (Qle_ceiling (fl (q * inject_Z (Z.of_nat n)))) as Hle.
      rewrite Zlt_Qlt. exact (Qlt_le_trans _ _ _ Hprod Hle). }
    lia.
  - destruct (Z.leb_spec (Z.of_nat n) k); [discriminate|].
    destruct (Z.leb_spec k 0); [discriminate|]. cbn.
    destruct (Nat.eqb_spec (n - Z.to_nat k) 0); [discriminate|].
    intros [= <- <-]. lia.
Qed.

Lemma validate_shuffle_split_fraction n q n_train n_test :
  validate_shuffle_split n (Fraction q) = Ok (n_train, n_test) →
  Z.of_nat n_test = Qceiling (fl (q * inject_Z (Z.of_nat n))).
Proof.
  intros Hv. pose proof (validate_shuffle_split_Ok _ _ _ _ Hv) as (_ & _ & Hpos).
  revert Hv. unfold validate_shuffle_split.
  destruct (negb _); [discriminate|].
  destruct (Nat.eqb _ 0); [discriminate|].
  intros [= _ <-]. lia.
Qed.

(** The ceiling of a number is its rounding, or one more. *)
Lemma ceiling_round q : (round q <= Qceiling q <= round q + 1)%Z.
Proof.
  pose proof (Qfloor_le q) as Hfl. pose proof (Qlt_floor q) as Hlt.
  pose proof (Qle_ceiling q) as Hce. pose proof (Qceiling_lt q) as Hcl.
  assert (Qfloor q <= Qceiling q)%Z as H1.
  { rewrite Zle_Qle. exact (Qle_trans _ _ _ Hfl Hce). }
  assert (Qceiling q <= Qfloor q + 1)%Z as H2.
  { assert (inject_Z (Qceiling q - 1) < inject_Z (Qfloor q + 1))%Q as Hc
      by (eapply Qlt_trans; eauto).
    rewrite <- Zlt_Qlt in Hc. lia. }
  assert ((inject_Z (Qfloor q) < q)%Q → Qceiling q = (Qfloor q + 1)%Z) as Hfrac.
  { intros Hq.
    assert (inject_Z (Qfloor q) < inject_Z (Qceiling q))%Q as Hc
      by (eapply Qlt_le_trans; eauto).
    rewrite <- Zlt_Qlt in Hc. lia. }
  assert (((1 # 2) <= q - inject_Z (Qfloor q))%Q → (inject_Z (Qfloor q) < q)%Q)
    as Hhalf.
  { intros Hge. apply Qlt_minus_iff.
    eapply Qlt_le_trans; [|exact Hge]. reflexivity. }
  unfold round.
  destruct (Qcompare (q - inject_Z (Qfloor q)) (1 # 2)) eqn:Hcmp.
  - apply Qeq_alt in Hcmp.
    rewrite Hfrac by (apply Hhalf; rewrite Hcmp; apply Qle_refl).
    destruct (Z.even (Qfloor q)); lia.
  - lia.
  - apply Qgt_alt in Hcmp.
    rewrite Hfrac by (apply Hhalf, Qlt_le_weak, Hcmp). lia.
Qed.

(** A rounded value lies between the same two integers as the exact one, so
    its ceiling is within one of the rounding of the exact one. *)
Lemma ceiling_fl_round x :
  (round x - 1 <= Qceiling (fl x) <= round x + 1)%Z.
Proof.
  pose proof (Qfloor_le x) as Hfl. pose proof (Qlt_floor x) as Hlt.
  assert (inject_Z (Qfloor x) <= fl x)%Q as Hlo.
  { rewrite <- (fl_int (Qfloor x)). by apply fl_mono. }
  assert (fl x <= inject_Z (Qfloor x + 1))%Q as Hhi.
  { rewrite <- (fl_int (Qfloor x + 1)). by apply fl_mono, Qlt_le_weak. }
  assert (Qfloor x <= Qceiling (fl x))%Z as H1.
  { rewrite Zle_Qle. exact (Qle_trans _ _ _ Hlo (Qle_ceiling _)). }
  assert (Qceiling (fl x) <= Qfloor x + 1)%Z as H2.
  { pose proof (Qceiling_lt (fl x)) as Hc.
    assert (inject_Z (Qceiling (fl x) - 1) < inject_Z (Qfloor x + 1))%Q as Hc'
      by exact (Qlt_le_trans _ _ _ Hc Hhi).
    rewrite <- Zlt_Qlt in Hc'. lia. }
  assert (Qfloor x <= round x <= Qfloor x + 1)%Z as Hr.
  { unfold round. destruct (Qcompare _ _); [destruct (Z.even _)|..]; lia. }
  lia.
Qed.

Lemma round_comp x y : (x == y)%Q → round x = round y.
Proof.
  intros Hxy. unfold round. rewrite (Qfloor_comp _ _ Hxy).
  assert (x - inject_Z (Qfloor y) == y - inject_Z (Qfloor y))%Q as Hfrac
    by (apply Qplus_comp; [exact Hxy|apply Qeq_refl]).
  by rewrite (Qcompare_comp _ _ Hfrac _ _ (Qeq_refl (1 # 2))).
Qed.

Lemma take_length_take {A} n (a : list A) : take (length (take n a)) a = take n a.
Proof.
  rewrite length_take.
  destruct (Nat.min_spec n (length a)) as [[_ ->]|[Hle ->]]; [done|].
  by rewrite firstn_all, take_ge.
Qed.

Lemma test_rows_skipn {A} n_train n_test (a : list A) :
  n_train + n_test = length a →
  test_rows n_train n_test a = List.skipn n_train a.
Proof.
  intros Hlen. unfold test_rows. apply firstn_all2.
  rewrite length_skipn. lia.
Qed.

Lemma train_test_split_Ok {A B} (X : list A) (y : list B) test_size s :
  train_test_split X y test_size = Ok s →
  ∃ n_train n_test,
    validate_shuffle_split (length X) test_size = Ok (n_train, n_test) ∧
    length y = length X ∧
    s = (take n_train X, List.skipn n_train X, take n_train y, List.skipn n_train y).
Proof.
  unfold train_test_split.
  destruct (Nat.eqb_spec (length X) (length y)) as [Hlen|]; [|discriminate]. cbn.
  destruct (validate_shuffle_split _ _) as [[n_train n_test]|] eqn:Hv;
    [|discriminate].
  cbn. intros [= <-]. exists n_train, n_test.
  apply validate_shuffle_split_Ok in Hv as Hsum. destruct Hsum as (Hsum & _).
  split_and!; [done..|].
  unfold train_rows. rewrite !test_rows_skipn by lia. done.
Qed.

End SplitFacts.

(** ** Frames and the imputer *)

Section FrameFacts.
Context `{Numpy}.


Lemma compress_nil {A} (keep : list bool) : compress keep (@nil A) = [].
Proof. by destruct keep. Qed.

(** Two selections in a row are one selection by the conjunction. *)
Lemma compress_compress {A B} (f g : A → bool) (cols : list A) (r : list B) :
  compress (map g (compress (map f cols) cols)) (compress (map f cols) r)
  = compress (map (λ c, f c && g c) cols) r.
Proof.
  revert r. induction cols as [|c cols IH]; intros r; [done|].
  destruct r as [|x r].
  - by rewrite !compress_nil.
  - cbn. destruct (f c); cbn; [|apply IH]. destruct (g c); by rewrite IH.
Qed.

Lemma target_at data j r :
  get_loc "SalePrice" (columns data) = Some j → target data r = at_col j r.
Proof. intros Hj. unfold target. by rewrite Hj. Qed.

Lemma labelled_at data j :
  get_loc "SalePrice" (columns data) = Some j →
  labelled data = List.filter (λ r, negb (isna (at_col j r))) (rows data).
Proof.
  intros Hj. unfold labelled. apply filter_ext. intros r.
  by rewrite (target_at _ j).
Qed.

Lemma mapM_Ok {A B} (f : A → Result B) (l : list A) (l' : list B) :
  mapM f l = Ok l' → Forall2 (λ x y, f x = Ok y) l l'.
Proof.
  revert l'. induction l as [|x l IH]; intros l'; cbn.
  - intros [= <-]. constructor.
  - destruct (f x) as [y|] eqn:Hx; [|discriminate]. cbn.
    destruct (mapM f l) as [ys|]; [|discriminate]. cbn.
    intros [= <-]. constructor; auto.
Qed.

Lemma check_array_Ok X Xf :
  check_array X = Ok Xf → length Xf = length X ∧ 0 < length X.
Proof.
  unfold check_array.
  destruct (Nat.eqb_spec (length X) 0); [discriminate|].
  destruct (Nat.eqb (n_cols X) 0); [discriminate|]. cbn.
  intros HM. apply mapM_Ok, Forall2_length in HM. lia.
Qed.

(** No NaN is left in an imputed row. *)
Lemma impute_row_observed stats row : Forall is_Some (impute_row stats row).
Proof.
  revert row. induction stats as [|s stats IH]; intros [|c row]; cbn;
    try constructor.
  destruct s as [m|]; [|apply IH].
  constructor; [|apply IH]. by destruct c.
Qed.

Lemma transform_Ok imputer X Xt :
  transform imputer X = Ok Xt →
  ∃ Xf, check_array X = Ok Xf ∧
        Xt = map (impute_row (statistics_ imputer)) Xf ∧
        length Xt = length X.
Proof.
  unfold transform. destruct (check_array X) as [Xf|] eqn:Hc; [|discriminate].
  cbn. destruct (negb _); [discriminate|]. intros [= <-].
  exists Xf. split_and!; [done..|].
  rewrite length_map. by apply check_array_Ok in Hc as [-> _].
Qed.

End FrameFacts.

(** ** [read_input], step by step *)

Section ReadInputFacts.
Context `{Numpy} `{!Pandas}.

(** What a returning [read_input] has done: the file was there and parsed to
    a frame with a [SalePrice] column; the split sizes came from the number
    of labelled rows; the imputer was fitted on the first [n_train] feature
    rows and applied to both blocks. *)
Lemma read_input_Ok file_name test_size w res w' :
  read_input file_name test_size w = (Ok res, w') →
  ∃ b data n_train n_test imputer train_X test_X,
    fs w !! file_name = Some b ∧
    parse_csv b = Ok data ∧
    is_Some (get_loc "SalePrice" (columns data)) ∧
    validate_shuffle_split (length (labelled data))
      (default (Fraction (1 # 4)) test_size) = Ok (n_train, n_test) ∧
    fit unfitted (take n_train (features data)) = Ok imputer ∧
    transform imputer (take n_train (features data)) = Ok train_X ∧
    transform imputer (List.skipn n_train (features data)) = Ok test_X ∧
    res = ((train_X, take n_train (targets data)),
           (test_X, List.skipn n_train (targets data)), imputer) ∧
    fs w' = fs w ∧ gcs w' = gcs w ∧
    trace w' = (trace w ++ [Opened file_name])%list.
Proof.
  unfold read_input, bind, lift, read_csv, ret.
  destruct (fs w !! file_name) as [b|] eqn:Hb; [|discriminate].
  destruct (parse_csv b) as [data|] eqn:Hp; [|discriminate].
  unfold dropna, getattr_values, drop. cbn [columns rows].
  destruct (get_loc "SalePrice" (columns data)) as [j|] eqn:Hj; [|discriminate].
  cbn [columns rows]. rewrite Hj.
  destruct (train_test_split _ _ _) as [[[[trX teX] trY] teY]|] eqn:Hs;
    [|discriminate].
  apply train_test_split_Ok in Hs as (n_train & n_test & Hv & Hlen & Hs).
  injection Hs as -> -> -> ->.
  destruct (fit_transform _ _) as [[imputer train_X]|] eqn:Hft; [|discriminate].
  destruct (transform imputer _) as [test_X|] eqn:Htt; [|discriminate].
  intros [= <- <-].
  unfold values, select_dtypes_exclude, take_columns in *.
  cbn [columns rows] in *.
  assert (map (compress
                 (map (λ c : string * dtype, negb (dtype_eqb (snd c) object))
                    (compress
                       (map (λ c : string * dtype,
                               negb (String.eqb (fst c) "SalePrice"))
                          (columns data))
                       (columns data))))
            (map (compress
                    (map (λ c : string * dtype,
                            negb (String.eqb (fst c) "SalePrice"))
                       (columns data)))
               (List.filter (λ r, negb (isna (at_col j r))) (rows data)))
          = features data) as HX.
  { unfold features. rewrite (labelled_at _ j) by done. rewrite map_map.
    apply map_ext. intros r.
    apply (compress_compress (λ c, negb (String.eqb (fst c) "SalePrice"))
             (λ c, negb (dtype_eqb (snd c) object))). }
  assert (map (at_col j) (List.filter (λ r, negb (isna (at_col j r))) (rows data))
          = targets data) as Hy.
  { unfold targets. rewrite (labelled_at _ j) by done.
    apply map_ext. intros r. by rewrite (target_at _ j). }
  rewrite HX in *. rewrite Hy in *.
  assert (length (features data) = length (labelled data)) as HlenX
    by (unfold features; apply length_map).
  rewrite HlenX in Hv.
  unfold fit_transform in Hft.
  destruct (fit _ _) as [i|] eqn:Hfit; [|discriminate]. cbn in Hft.
  destruct (transform i _) as [Y|] eqn:Ht; [|discriminate].
  injection Hft as -> ->.
  exists b, data, n_train, n_test, imputer, train_X, test_X.
  split_and!; done.
Qed.

End ReadInputFacts.

(** ** The data loader *)

Section DataLoaderSpec.
Context `{Numpy} `{!Pandas}.

(** Only the file decides what [read_input] returns: not the other files,
    not the object store, not what was done before. *)
Lemma read_input_only_file file_name test_size w1 w2 :
  fs w1 !! file_name = fs w2 !! file_name →
  fst (read_input file_name test_size w1) = fst (read_input file_name test_size w2).
Proof.
  intros Hfs. unfold read_input, bind, read_csv. rewrite Hfs.
  destruct (fs w2 !! file_name); [|done].
  destruct (parse_csv b); [|done].
  unfold lift, ret.
  repeat match goal with
         | |- context [match ?r with Ok _ => _ | Raise _ => _ end] =>
             destruct r; cbn [fst]; try done
         | |- context [let '(_, _) := ?p in _] => destruct p
         end.
Qed.

(** C2: the medians that [read_input] fits, and the filled training matrix,
    are decided by the training block of feature rows alone: two runs (on any
    two files, at any two test fractions) whose training blocks are equal end
    with equal imputer statistics and equal training matrices, whatever the
    rows of the test blocks hold. *)
Theorem imputer_statistics_from_training_block
    file1 size1 w1 b1 data1 train_X1 train_y1 test1 imputer1 w1'
    file2 size2 w2 b2 data2 train_X2 train_y2 test2 imputer2 w2' :
  fs w1 !! file1 = Some b1 → parse_csv b1 = Ok data1 →
  fs w2 !! file2 = Some b2 → parse_csv b2 = Ok data2 →
  read_input file1 size1 w1 = (Ok ((train_X1, train_y1), test1, imputer1), w1') →
  read_input file2 size2 w2 = (Ok ((train_X2, train_y2), test2, imputer2), w2') →
  take (length train_X1) (features data1) = take (length train_X2) (features data2) →
  statistics_ imputer1 = statistics_ imputer2 ∧ train_X1 = train_X2.
Proof.
  intros Hb1 Hp1 Hb2 Hp2 Hr1 Hr2 Hblock.
  apply read_input_Ok in Hr1
    as (b & d & n1 & m1 & i1 & X1 & T1 & Hb & Hp & _ & _ & Hfit1 & Htr1 & _ & Hres1 & _).
  rewrite Hb1 in Hb. injection Hb as <-. rewrite Hp1 in Hp. injection Hp as <-.
  injection Hres1 as <- _ _ <-.
  apply read_input_Ok in Hr2
    as (b & d & n2 & m2 & i2 & X2 & T2 & Hb & Hp & _ & _ & Hfit2 & Htr2 & _ & Hres2 & _).
  rewrite Hb2 in Hb. injection Hb as <-. rewrite Hp2 in Hp. injection Hp as <-.
  injection Hres2 as <- _ _ <-.
  apply transform_Ok in Htr1 as Hl1. destruct Hl1 as (_ & _ & _ & Hl1).
  apply transform_Ok in Htr2 as Hl2. destruct Hl2 as (_ & _ & _ & Hl2).
  rewrite Hl1, Hl2, !take_length_take in Hblock.
  rewrite Hblock in Hfit1, Htr1.
  assert (imputer1 = imputer2) as -> by congruence.
  split; congruence.
Qed.

(** C3: with a test fraction [t] (given, or 0.25 by default), the number of
    test rows is the ceiling of the float product [t * total]: the rounding
    of that product or one more, and within one of the rounding of the exact
    [total * t]; the train and test rows together are the rows that have a
    target. *)
Theorem read_input_row_counts
    file_name test_size t w b data train_X train_y test_X test_y imputer w' :
  default (Fraction (1 # 4)) test_size = Fraction t →
  fs w !! file_name = Some b → parse_csv b = Ok data →
  read_input file_name test_size w
    = (Ok ((train_X, train_y), (test_X, test_y), imputer), w') →
  let total := length (labelled data) in
  length train_y = length train_X ∧ length test_y = length test_X ∧
  Z.of_nat (length test_X) = Qceiling (fl (t * inject_Z (Z.of_nat total))) ∧
  (round (fl (t * inject_Z (Z.of_nat total))) <= Z.of_nat (length test_X)
     <= round (fl (t * inject_Z (Z.of_nat total))) + 1)%Z ∧
  (round (inject_Z (Z.of_nat total) * t) - 1 <= Z.of_nat (length test_X)
     <= round (inject_Z (Z.of_nat total) * t) + 1)%Z ∧
  length train_X + length test_X = total.
Proof.
  intros Ht Hb Hp Hr total.
  apply read_input_Ok in Hr
    as (b' & d & n_train & n_test & i & trX & teX & Hb' & Hp' & _ & Hv & _
        & Htr & Hte & Hres & _).
  rewrite Hb in Hb'. injection Hb' as <-. rewrite Hp in Hp'. injection Hp' as <-.
  injection Hres as -> -> -> -> ->.
  rewrite Ht in Hv.
  pose proof (validate_shuffle_split_Ok _ _ _ _ Hv) as (Hsum & Hpos1 & Hpos2).
  apply validate_shuffle_split_fraction in Hv.
  apply transform_Ok in Htr as (_ & _ & _ & Hl1).
  apply transform_Ok in Hte as (_ & _ & _ & Hl2).
  assert (length (features data) = total) as HlX by apply length_map.
  assert (length (targets data) = total) as Hly by apply length_map.
  rewrite length_take in Hl1. rewrite length_skipn in Hl2.
  rewrite length_take, length_skipn.
  pose proof (ceiling_round (fl (t * inject_Z (Z.of_nat total)))) as Hround.
  pose proof (ceiling_fl_round (t * inject_Z (Z.of_nat total))) as Hexact.
  rewrite (round_comp (inject_Z (Z.of_nat total) * t) (t * inject_Z (Z.of_nat total)))
    by apply Qmult_comm.
  fold total in Hsum, Hv.
  split_and!; lia.
Qed.

(** C4: [read_input] does not shuffle.  The training labels are the first
    [n_train] targets in file order and the test labels are the rest; the
    training matrix is the imputer applied to the first [n_train] feature
    rows, the test matrix the imputer applied to the rest.  Without a
    [test_size] the held-out fraction is 0.25.  The result is decided by the
    contents of the file and [test_size]. *)
Theorem read_input_split_in_order file_name test_size w b data res w' :
  fs w !! file_name = Some b → parse_csv b = Ok data →
  read_input file_name test_size w = (Ok res, w') →
  read_input file_name None = read_input file_name (Some (Fraction (1 # 4))) ∧
  (∀ w2, fs w2 !! file_name = Some b →
         fst (read_input file_name test_size w2) = Ok res) ∧
  ∃ n_train,
    0 < n_train < length (labelled data) ∧
    n_train = length (fst (fst (fst res))) ∧
    snd (fst (fst res)) = take n_train (targets data) ∧
    snd (snd (fst res)) = List.skipn n_train (targets data) ∧
    transform (snd res) (take n_train (features data)) = Ok (fst (fst (fst res))) ∧
    transform (snd res) (List.skipn n_train (features data))
      = Ok (fst (snd (fst res))).
Proof.
  intros Hb Hp Hr. split; [done|]. split.
  { intros w2 Hb2.
    rewrite <- (read_input_only_file file_name test_size w w2) by congruence.
    by rewrite Hr. }
  apply read_input_Ok in Hr
    as (b' & d & n_train & n_test & i & trX & teX & Hb' & Hp' & _ & Hv & _
        & Htr & Hte & -> & _).
  rewrite Hb in Hb'. injection Hb' as <-. rewrite Hp in Hp'. injection Hp' as <-.
  apply validate_shuffle_split_Ok in Hv as (Hsum & Hpos1 & Hpos2).
  exists n_train. cbn [fst snd].
  apply transform_Ok in Htr as Hl. destruct Hl as (_ & _ & _ & Hl).
  rewrite length_take in Hl.
  assert (length (features data) = length (labelled data)) by apply length_map.
  split_and!; try done; lia.
Qed.

(** C5: no entry of the training matrix or of the test matrix that
    [read_input] returns is missing. *)
Theorem read_input_no_missing
    file_name test_size w train_X train_y test_X test_y imputer w' :
  read_input file_name test_size w
    = (Ok ((train_X, train_y), (test_X, test_y), imputer), w') →
  Forall (Forall is_Some) train_X ∧ Forall (Forall is_Some) test_X.
Proof.
  intros Hr.
  apply read_input_Ok in Hr
    as (b & d & n_train & n_test & i & trX & teX & _ & _ & _ & _ & _
        & Htr & Hte & Hres & _).
  injection Hres as -> _ -> _ _.
  apply transform_Ok in Htr as (Xf & _ & -> & _).
  apply transform_Ok in Hte as (Yf & _ & -> & _).
  split; apply Forall_map, Forall_true; intros r; apply impute_row_observed.
Qed.


End DataLoaderSpec.

(** ** Saving and uploading *)

Section PersisterSpec.
Context `{Numpy} `{!Pandas} `{!XGBoost} `{!Metrics} `{!Joblib}.
Variable GCP_PROJECT : string.

(** A save to a path that can be written returns, with the pickle in the
    file. *)
Lemma save_model_spec model model_file w :
  unwritable w !! model_file = None →
  ∃ w1, save_model model model_file w = (Ok tt, w1) ∧
        fs w1 = <[model_file := dumps model]> (fs w) ∧
        gcs w1 = gcs w ∧
        unwritable w1 = unwritable w ∧
        trace w1 = (trace w ++ [Written model_file; Said (MsgExport model_file)])%list.
Proof.
  intros Hw. unfold save_model, bind, joblib_dump, emit. rewrite Hw.
  eexists. split; [reflexivity|]. cbn. by rewrite <- app_assoc.
Qed.

(** A save to a path that cannot be opened for writing raises what [open]
    raises and changes nothing. *)
Lemma save_model_raises model model_file w e :
  unwritable w !! model_file = Some e →
  save_model model model_file w = (Raise e, w).
Proof.
  intros Hw. unfold save_model, bind, joblib_dump. by rewrite Hw.
Qed.

(** An upload stores the contents of the local file under the given key, or
    raises and changes nothing; it never touches a local file. *)
Lemma upload_file_to_gcs_spec bucket_name source destination w r w' :
  upload_file_to_gcs bucket_name source destination w = (r, w') →
  fs w' = fs w ∧
  match r with
  | Ok _ =>
      ∃ buckets objects content,
        gcs w = Some buckets ∧ buckets !! bucket_name = Some objects ∧
        fs w !! source = Some content ∧
        gcs w' = Some (<[bucket_name := <[destination := content]> objects]> buckets) ∧
        trace w' = (trace w ++ [Opened source; BlobPut bucket_name destination;
                                Said (MsgUploaded source bucket_name destination)])%list
  | Raise _ => w' = w
  end.
Proof.
  unfold upload_file_to_gcs, bind, storage_Client, get_bucket, lift,
    upload_from_filename, emit.
  destruct (gcs w) as [buckets|] eqn:Hg; [|by intros [= <- <-]].
  destruct (buckets !! bucket_name) as [objects|] eqn:Hbk; [|by intros [= <- <-]].
  destruct (fs w !! source) as [content|] eqn:Hsrc; [|by intros [= <- <-]].
  rewrite Hg. intros [= <- <-]. cbn. split; [done|].
  exists buckets, objects, content. rewrite Hbk. cbn.
  split_and!; try done. by rewrite <- app_assoc.
Qed.

Lemma quiet_lift {A} (r : Result A) : quiet (lift r).
Proof. intros w. cbn. split_and!; [done..|]. exists []. by rewrite app_nil_r. Qed.

Lemma quiet_ret {A} (a : A) : quiet (ret a).
Proof. apply (quiet_lift (Ok a)). Qed.

Lemma quiet_bind {A B} (m : M World A) (k : A → M World B) :
  quiet m → (∀ a, quiet (k a)) → quiet (bind m k).
Proof.
  intros Hm Hk w. unfold bind.
  destruct (Hm w) as (Hfs & Hgcs & Hunw & new & Htr & Hnew).
  destruct (m w) as [[a|e] w1]; cbn [snd] in *.
  - destruct (Hk a w1) as (Hfs' & Hgcs' & Hunw' & new' & Htr' & Hnew').
    split_and!; [congruence..|].
    exists (new ++ new')%list. rewrite Htr', Htr, app_assoc.
    split; [done|]. by apply Forall_app.
  - split_and!; [done..|]. by exists new.
Qed.

Lemma quiet_said (m : message) : quiet (emit (Said m)).
Proof.
  intros w. cbn. split_and!; [done..|]. exists [Said m]. split; [done|].
  by repeat constructor.
Qed.

Lemma quiet_read_csv file_name : quiet (read_csv file_name).
Proof.
  intros w. unfold read_csv. destruct (fs w !! file_name); cbn.
  - split_and!; [done..|]. exists [Opened file_name]. split; [done|].
    by repeat constructor.
  - split_and!; [done..|]. exists []. by rewrite app_nil_r.
Qed.

Lemma quiet_read_input file_name test_size : quiet (read_input file_name test_size).
Proof.
  unfold read_input.
  repeat first
    [ apply quiet_bind; [first [apply quiet_read_csv | apply quiet_lift]|intros ?]
    | apply quiet_ret
    | match goal with |- quiet (let '(_, _) := ?p in _) => destruct p end ].
Qed.

Lemma quiet_train_model train_X train_y test_X test_y n_estimators learning_rate :
  quiet (train_model train_X train_y test_X test_y n_estimators learning_rate).
Proof.
  unfold train_model.
  apply quiet_bind; [apply quiet_lift|intros model].
  apply quiet_bind; [apply quiet_said|intros _]. apply quiet_ret.
Qed.

Lemma quiet_eval_model model test_X test_y : quiet (eval_model model test_X test_y).
Proof.
  unfold eval_model.
  apply quiet_bind; [apply quiet_lift|intros p].
  apply quiet_bind; [apply quiet_lift|intros mae]. apply quiet_said.
Qed.

Lemma quiet_fitted_model self : quiet (fitted_model self).
Proof.
  unfold fitted_model.
  apply quiet_bind; [apply quiet_read_input|intros [[[trX trY] [teX teY]] i]].
  apply quiet_bind; [apply quiet_train_model|intros model].
  apply quiet_bind; [apply quiet_eval_model|intros _]. apply quiet_ret.
Qed.

Lemma train_unfold self w :
  train GCP_PROJECT self w
  = (model <- fitted_model self ;;
     _ <- save_model model (model_file self) ;;
     upload_file_to_gcs (GCS_BUCKET_ID GCP_PROJECT)
       (model_file self) (model_file self))%io w.
Proof.
  unfold train, fitted_model, bind.
  destruct (read_input _ _ w) as [[[[[trX trY] [teX teY]] i]|e] w1]; [|done].
  destruct (train_model _ _ _ _ _ _ w1) as [[model|e] w2]; [|done].
  by destruct (eval_model _ _ _ w2) as [[[]|e] w3].
Qed.

(** C7: [train] saves before it uploads.  It stops before there is a model,
    having written nothing; or the save raises (the path cannot be opened
    for writing), nothing is written and no upload is run; or it writes the
    pickled model to [self.model_file] and only then runs the upload, from
    that file to the key of the same name.  The upload does not touch the
    local file: when it raises, the world is the one the save left. *)
Theorem train_saves_then_uploads self w r w' :
  train GCP_PROJECT self w = (r, w') →
  ∃ w0 pre,
    fitted_model self w = (fst (fitted_model self w), w0) ∧
    fs w0 = fs w ∧ gcs w0 = gcs w ∧
    trace w0 = (trace w ++ pre)%list ∧ Forall (λ e, is_write e = false) pre ∧
    match fst (fitted_model self w) with
    | Raise e => r = Raise e ∧ w' = w0
    | Ok model =>
        match unwritable w !! model_file self with
        | Some e =>
            save_model model (model_file self) w0 = (Raise e, w0) ∧
            r = Raise e ∧ w' = w0
        | None =>
            ∃ w1,
              save_model model (model_file self) w0 = (Ok tt, w1) ∧
              fs w1 = <[model_file self := dumps model]> (fs w) ∧
              gcs w1 = gcs w ∧
              trace w1 = (trace w0 ++ [Written (model_file self);
                                       Said (MsgExport (model_file self))])%list ∧
              upload_file_to_gcs (GCS_BUCKET_ID GCP_PROJECT)
                (model_file self) (model_file self) w1 = (r, w') ∧
              fs w' = fs w1 ∧
              match r with
              | Ok _ =>
                  ∃ buckets objects,
                    gcs w = Some buckets ∧
                    buckets !! GCS_BUCKET_ID GCP_PROJECT = Some objects ∧
                    gcs w' = Some (<[GCS_BUCKET_ID GCP_PROJECT :=
                                       <[model_file self := dumps model]> objects]>
                                     buckets) ∧
                    trace w' = (trace w1 ++
                      [Opened (model_file self);
                       BlobPut (GCS_BUCKET_ID GCP_PROJECT) (model_file self);
                       Said (MsgUploaded (model_file self)
                               (GCS_BUCKET_ID GCP_PROJECT) (model_file self))])%list
              | Raise _ => w' = w1
              end
        end
    end.
Proof.
  rewrite train_unfold. unfold bind at 1.
  destruct (quiet_fitted_model self w) as (Hfs & Hgcs & Hunw & pre & Htr & Hpre).
  destruct (fitted_model self w) as [[model|e] w0]; cbn [fst snd] in *.
  - intros Hrun. exists w0, pre. split_and!; try done.
    rewrite <- Hunw. unfold bind in Hrun.
    destruct (unwritable w0 !! model_file self) as [e|] eqn:Hw.
    + rewrite (save_model_raises _ _ _ _ Hw) in Hrun. injection Hrun as <- <-.
      split_and!; [by apply save_model_raises|done..].
    + destruct (save_model_spec model (model_file self) w0 Hw)
        as (w1 & Hsave & Hfs1 & Hgcs1 & _ & Htr1).
      rewrite Hsave in Hrun.
      exists w1. rewrite Hfs1, Hgcs1, Hfs, Hgcs.
      apply upload_file_to_gcs_spec in Hrun as Hup. destruct Hup as (Hfs2 & Hup).
      split_and!; try done; [congruence|].
      destruct r as [[]|e]; [|done].
      destruct Hup as (buckets & objects & content & Hb & Hbk & Hsrc & Hg & Ht).
      rewrite Hfs1, lookup_insert_eq in Hsrc. injection Hsrc as <-.
      exists buckets, objects. split_and!; try done. congruence.
  - intros [= <- <-]. exists w0, pre. by split_and!.
Qed.

End PersisterSpec.

(** ** The predictor *)

Section PredictorSpec.
Context `{Numpy} `{!Pandas} `{!XGBoost} `{!Metrics} `{!Joblib}.
Variable GCP_PROJECT : string.

Lemma first_pair_scores m X :
  first_pair (xgb_predict m X)
  = if Nat.eqb (shape1 X) (n_features m)
       && forallb (λ r, Nat.eqb (length r) (n_features m)) (data X)
    then match data X with
         | [] => Raise IndexError
         | r :: _ => Ok [[predict_row m r; predict_row m r]]
         end
    else Raise ValueError.
Proof.
  unfold first_pair, xgb_predict.
  destruct (_ && _); [|done]. by destruct (data X).
Qed.

(** With a model in [self.trained_model], [predict] reads nothing and
    changes nothing. *)
Lemma predict_cached self w m X feature_names :
  trained_model self = Some m →
  predict X feature_names (self, w) = (first_pair (xgb_predict m X), (self, w)).
Proof.
  intros Hm. unfold predict, bind, get_self, lift, ret, first_pair, rbind.
  cbn [fst snd]. rewrite Hm.
  destruct (xgb_predict m X) as [prediction|]; [|done].
  by destruct (item 0 prediction).
Qed.

(** Without one, [predict] goes to [self.model_file] on the local disk. *)
Lemma predict_first_use self w X feature_names :
  trained_model self = None →
  predict X feature_names (self, w)
  = match fs w !! model_file self with
    | None => (Raise FileNotFoundError, (self, w))
    | Some b =>
        let w1 := opened (model_file self) w in
        match loads b with
        | Raise e => (Raise e, (self, w1))
        | Ok m =>
            (first_pair (xgb_predict m X),
             ({| train_input := train_input self;
                 n_estimators := n_estimators self;
                 learning_rate := learning_rate self;
                 model_file := model_file self;
                 trained_model := Some m |}, w1))
        end
    end.
Proof.
  intros Hm.
  unfold predict, bind, get_self, lift, ret, first_pair, rbind, in_world,
    joblib_load, set_trained_model.
  cbn [fst snd]. rewrite Hm. cbn.
  destruct (fs w !! model_file self) as [b|]; cbn; [|done].
  destruct (loads b) as [m|]; cbn; [|done]. cbn [fst snd].
  destruct (xgb_predict m X) as [prediction|]; cbn; [|done].
  by destruct (item 0 prediction).
Qed.

Lemma exec_keeps_model s st m :
  trained_model (fst s) = Some m →
  trained_model (fst (exec GCP_PROJECT s st)) = Some m ∧
  (is_train st = false → trace (snd (exec GCP_PROJECT s st)) = trace (snd s)).
Proof.
  intros Hm. destruct s as [self w].
  destruct st as [|X fn|files buckets]; unfold exec; cbn [fst snd is_train] in *.
  - done.
  - by rewrite (predict_cached _ _ m).
  - done.
Qed.

Lemma exec_all_keeps_model steps s m :
  trained_model (fst s) = Some m →
  trained_model (fst (exec_all GCP_PROJECT steps s)) = Some m ∧
  (forallb (λ st, negb (is_train st)) steps = true →
   trace (snd (exec_all GCP_PROJECT steps s)) = trace (snd s)).
Proof.
  revert s. induction steps as [|st steps IH]; intros s Hm; [done|].
  destruct (exec_keeps_model s st m Hm) as [Hm' Htr].
  destruct (IH _ Hm') as [IHm IHtr].
  change (exec_all GCP_PROJECT (st :: steps) s)
    with (exec_all GCP_PROJECT steps (exec GCP_PROJECT s st)).
  split; [done|]. cbn [forallb].
  intros [Hst Hrest]%andb_true_iff. apply negb_true_iff in Hst.
  rewrite IHtr, Htr; done.
Qed.

(** C1 (as the code has it): with a model loaded, what [predict] returns is
    one pair, whatever the number of rows of [X]: both elements are the
    score of the first row, and the object and the world stay as they were.
    It returns on every [X] that has a row and the model's number of
    columns. *)
Theorem predict_first_row_pair self w m X feature_names :
  trained_model self = Some m →
  (∀ res s',
     predict X feature_names (self, w) = (Ok res, s') →
     ∃ r rest, data X = r :: rest ∧
               res = [[predict_row m r; predict_row m r]] ∧ s' = (self, w)) ∧
  (∀ r rest,
     data X = r :: rest → shape1 X = n_features m →
     Forall (λ r', length r' = n_features m) (data X) →
     predict X feature_names (self, w)
     = (Ok [[predict_row m r; predict_row m r]], (self, w))).
Proof.
  intros Hm. rewrite (predict_cached _ _ m) by done. rewrite first_pair_scores.
  split.
  - intros res s'. destruct (_ && _); [|done].
    destruct (data X) as [|r rest]; [done|]. intros [= <- <-]. eauto.
  - intros r rest Hdata Hshape Hrows. rewrite Hdata in *.
    rewrite (proj2 (Nat.eqb_eq _ _) Hshape).
    assert (forallb (λ r', Nat.eqb (length r') (n_features m)) (r :: rest) = true)
      as -> ; [|done].
    apply forallb_forall. intros r' Hr'. apply Nat.eqb_eq.
    rewrite Forall_forall in Hrows. by apply Hrows, list_elem_of_In.
Qed.

(** C9: the model is loaded on demand and kept.  A new object has no model.
    A [predict] on an object without a model reads [self.model_file] from the
    local disk and nothing else: no file and no bucket changes, and the
    object holds the unpickled model afterwards when there was one to
    unpickle.  A [predict] on an object with a model leaves the object and
    the world as they are: no file is read.  Whatever is called on the
    object, and whatever happens to the files in between, the model it holds
    is never replaced. *)
Theorem trained_model_loaded_once :
  trained_model __init__ = None ∧
  (∀ self w X feature_names,
     trained_model self = None →
     let s' := snd (predict X feature_names (self, w)) in
     fs (snd s') = fs w ∧ gcs (snd s') = gcs w ∧
     model_file (fst s') = model_file self ∧
     match fs w !! model_file self with
     | None => s' = (self, w)
     | Some b =>
         trace (snd s') = (trace w ++ [Opened (model_file self)])%list ∧
         match loads b with
         | Ok m => trained_model (fst s') = Some m
         | Raise _ => fst s' = self
         end
     end) ∧
  (∀ self w m X feature_names,
     trained_model self = Some m →
     snd (predict X feature_names (self, w)) = (self, w)) ∧
  (∀ steps s m,
     trained_model (fst s) = Some m →
     trained_model (fst (exec_all GCP_PROJECT steps s)) = Some m ∧
     (forallb (λ st, negb (is_train st)) steps = true →
      trace (snd (exec_all GCP_PROJECT steps s)) = trace (snd s))).
Proof.
  split_and!.
  - done.
  - intros self w X fn Hnone. rewrite (predict_first_use _ _ _ _ Hnone).
    destruct (fs w !! model_file self) as [b|]; [|done].
    cbn zeta. by destruct (loads b).
  - intros self w m X fn Hm. by rewrite (predict_cached _ _ m).
  - apply exec_all_keeps_model.
Qed.

(** C10: [predict] does not look at [feature_names]: the result and the state
    after the call are the same for any two values of it. *)
Theorem predict_ignores_feature_names
    (self : HousingServe) (w : World) (X : array) (names1 names2 : list string) :
  predict X names1 (self, w) = predict X names2 (self, w).
Proof. reflexivity. Qed.

End PredictorSpec.

(** ** The properties on the small instance *)

Section Examples.
Import Ames.
#[local] Existing Instance numpy.
#[local] Existing Instance pandas.
#[local] Existing Instance xgboost.
#[local] Existing Instance metrics.
#[local] Existing Instance joblib.
#[local] Open Scope Q_scope.

Lemma read_input_world :
  read_input csv None world
  = (Ok ((train_X, train_y), (test_X, test_y), imputer), after_read world).
Proof. reflexivity. Qed.

Lemma read_input_world' :
  read_input csv None world'
  = (Ok ((train_X, train_y), (test_X', test_y), imputer), after_read world').
Proof. reflexivity. Qed.

(** The two files differ in a test row only; the medians are the same. *)
Lemma imputer_statistics_from_training_block_witness :
  take (length train_X) (features frame) = take (length train_X) (features frame') ∧
  test_X ≠ test_X' ∧
  statistics_ imputer = statistics_ imputer ∧ train_X = train_X.
Proof.
  split; [reflexivity|].
  split; [discriminate|].
  apply (imputer_statistics_from_training_block
           csv None world "ames" frame train_X train_y (test_X, test_y) imputer
           (after_read world)
           csv None world' "ames'" frame' train_X train_y (test_X', test_y) imputer
           (after_read world')).
  - reflexivity.
  - reflexivity.
  - reflexivity.
  - reflexivity.
  - reflexivity.
  - reflexivity.
  - reflexivity.
Defined.

(** Five labelled rows at 0.25: two test rows, where [round 1.25] is one. *)
Lemma read_input_row_counts_witness :
  length (labelled frame) = 5%nat ∧ round (inject_Z 5 * (1 # 4)) = 1%Z ∧
  (length train_y = length train_X ∧ length test_y = length test_X ∧
   Z.of_nat (length test_X)
     = Qceiling (fl ((1 # 4) * inject_Z (Z.of_nat (length (labelled frame))))) ∧
   (round (fl ((1 # 4) * inject_Z (Z.of_nat (length (labelled frame)))))
      <= Z.of_nat (length test_X)
      <= round (fl ((1 # 4) * inject_Z (Z.of_nat (length (labelled frame))))) + 1)%Z ∧
   (round (inject_Z (Z.of_nat (length (labelled frame))) * (1 # 4)) - 1
      <= Z.of_nat (length test_X)
      <= round (inject_Z (Z.of_nat (length (labelled frame))) * (1 # 4)) + 1)%Z ∧
   (length train_X + length test_X)%nat = length (labelled frame)).
Proof.
  split; [reflexivity|]. split; [reflexivity|].
  apply (read_input_row_counts csv None (1 # 4) world "ames" frame
           train_X train_y test_X test_y imputer (after_read world)).
  - reflexivity.
  - reflexivity.
  - reflexivity.
  - reflexivity.
Defined.

Lemma read_input_split_in_order_witness :
  read_input csv None = read_input csv (Some (Fraction (1 # 4))) ∧
  (∀ w2, fs w2 !! csv = Some "ames" →
         fst (read_input csv None w2)
         = Ok ((train_X, train_y), (test_X, test_y), imputer)) ∧
  ∃ n_train,
    (0 < n_train < length (labelled frame))%nat ∧
    n_train = length train_X ∧
    train_y = take n_train (targets frame) ∧
    test_y = List.skipn n_train (targets frame) ∧
    transform imputer (take n_train (features frame)) = Ok train_X ∧
    transform imputer (List.skipn n_train (features frame)) = Ok test_X.
Proof.
  apply (read_input_split_in_order csv None world "ames" frame
           ((train_X, train_y), (test_X, test_y), imputer) (after_read world)).
  - reflexivity.
  - reflexivity.
  - reflexivity.
Defined.

(** The third feature column has no value in the training block: it is
    dropped, and the missing [LotArea] entries are filled. *)
Lemma read_input_no_missing_witness :
  Forall (Forall is_Some) train_X ∧ Forall (Forall is_Some) test_X.
Proof.
  apply (read_input_no_missing csv None world train_X train_y test_X test_y
           imputer (after_read world)).
  reflexivity.
Defined.


(** With no object store in reach the upload raises; the pickled model is
    on the disk all the same. *)
Lemma train_saves_then_uploads_witness :
  train project __init__ offline = (Raise ClientError, saved_offline) ∧
  fs saved_offline !! model_file __init__ = Some (dumps booster) ∧
  gcs saved_offline = gcs offline.
Proof.
  assert (train project __init__ offline = (Raise ClientError, saved_offline))
    as Hrun by reflexivity.
  split; [exact Hrun|].
  destruct (train_saves_then_uploads project __init__ offline
              (Raise ClientError) saved_offline Hrun)
    as (w0 & pre & _ & _ & _ & _ & _ & Hcase).
  change (fst (fitted_model __init__ offline)) with (Ok booster) in Hcase.
  destruct Hcase as (w1 & _ & Hfs1 & Hgcs1 & _ & _ & Hfs' & Hsame).
  split.
  - rewrite Hfs', Hfs1. apply lookup_insert_eq.
  - rewrite Hsame. exact Hgcs1.
Defined.

(** Two rows in, one pair out: the score of the first row, twice. *)
Lemma predict_first_row_pair_witness :
  trained_model warm = Some booster ∧
  predict two_rows [] (warm, serving) = (Ok [[3; 3]], (warm, serving)).
Proof.
  split; [reflexivity|].
  destruct (predict_first_row_pair warm serving booster two_rows [] eq_refl)
    as [_ Hreturns].
  apply (Hreturns [Some 1; Some 2] [[Some 3; Some 4]]).
  - reflexivity.
  - reflexivity.
  - by repeat constructor.
Defined.

(** C1 as it is written fails on two rows: the pair of the second row, whose
    score is 7, is not in what [predict] returns. *)
Lemma predict_not_a_pair_per_row :
  ¬ (∀ (self : HousingServe) (w : World) (m : XGBRegressor) (X : array)
       (names : list string) (res : list (list num)) s',
       trained_model self = Some m →
       predict X names (self, w) = (Ok res, s') →
       Forall (λ r, In [predict_row m r; predict_row m r] res) (data X)).
Proof.
  intros Hclaim.
  specialize (Hclaim warm serving booster two_rows [] [[3; 3]] (warm, serving)
                eq_refl eq_refl).
  apply Forall_cons in Hclaim as [_ Hclaim].
  apply Forall_cons in Hclaim as [Hin _].
  destruct Hin as [Heq|[]]. discriminate Heq.
Qed.

(** A model once held stays, through a retraining, a change of the files and
    two more predictions. *)
Lemma trained_model_loaded_once_witness :
  trained_model
    (fst (exec_all project
            [CallTrain; CallPredict two_rows []; Elsewhere ∅ None;
             CallPredict two_rows []]
            (warm, world)))
  = Some booster.
Proof.
  destruct (trained_model_loaded_once project) as (_ & _ & _ & Hkeep).
  apply (Hkeep _ (warm, world) booster eq_refl).
Defined.

End Examples.

(** * Further properties *)

(** ** [read_input] as one equation *)

Section ReadInputEquation.
Context `{Numpy} `{!Pandas}.

Lemma features_selected data j :
  get_loc "SalePrice" (columns data) = Some j →
  map (compress
         (map (λ c : string * dtype, negb (dtype_eqb (snd c) object))
            (compress
               (map (λ c : string * dtype, negb (String.eqb (fst c) "SalePrice"))
                  (columns data))
               (columns data))))
    (map (compress
            (map (λ c : string * dtype, negb (String.eqb (fst c) "SalePrice"))
               (columns data)))
       (List.filter (λ r, negb (isna (at_col j r))) (rows data)))
  = features data.
Proof.
  intros Hj. unfold features. rewrite (labelled_at _ j) by done. rewrite map_map.
  apply map_ext. intros r.
  apply (compress_compress (λ c, negb (String.eqb (fst c) "SalePrice"))
           (λ c, negb (dtype_eqb (snd c) object))).
Qed.

Lemma targets_selected data j :
  get_loc "SalePrice" (columns data) = Some j →
  map (at_col j) (List.filter (λ r, negb (isna (at_col j r))) (rows data))
  = targets data.
Proof.
  intros Hj. unfold targets. rewrite (labelled_at _ j) by done.
  apply map_ext. intros r. by rewrite (target_at _ j).
Qed.

Lemma train_test_split_eq {A B} (X : list A) (y : list B) test_size :
  length X = length y →
  train_test_split X y test_size
  = (n <- validate_shuffle_split (length X) test_size ;;
     let '(n_train, n_test) := n in
     Ok (take n_train X, List.skipn n_train X,
         take n_train y, List.skipn n_train y))%py.
Proof.
  intros Hlen. unfold train_test_split.
  rewrite (proj2 (Nat.eqb_eq _ _) Hlen). cbn.
  destruct (validate_shuffle_split _ _) as [[n_train n_test]|] eqn:Hv; [|done].
  cbn. apply validate_shuffle_split_Ok in Hv as (Hsum & _).
  unfold train_rows. by rewrite !test_rows_skipn by lia.
Qed.

(** [read_input] is: look the file up, parse it, split and impute. *)
Lemma read_input_eq file_name test_size w :
  read_input file_name test_size w
  = match fs w !! file_name with
    | None => (Raise FileNotFoundError, w)
    | Some b =>
        ((data <- parse_csv b ;;
          split_and_impute data (default (Fraction (1 # 4)) test_size))%py,
         opened file_name w)
    end.
Proof.
  unfold read_input, bind, lift, read_csv, ret, opened.
  destruct (fs w !! file_name) as [b|]; [|done].
  destruct (parse_csv b) as [data|]; [|done].
  unfold dropna, getattr_values, drop, split_and_impute. cbn [columns rows rbind].
  destruct (get_loc "SalePrice" (columns data)) as [j|] eqn:Hj; [|done].
  cbn [columns rows]. rewrite Hj.
  unfold values, select_dtypes_exclude, take_columns. cbn [columns rows].
  rewrite (features_selected _ j), (targets_selected _ j) by done.
  assert (length (features data) = length (labelled data)) as HlX
    by apply length_map.
  assert (length (targets data) = length (labelled data)) as Hly
    by apply length_map.
  rewrite train_test_split_eq by congruence. rewrite HlX.
  destruct (validate_shuffle_split _ _) as [[n_train n_test]|]; [|done].
  cbn [rbind]. unfold fit_transform. fold unfitted.
  destruct (fit unfitted _) as [imputer|]; [|done]. cbn [rbind].
  destruct (transform imputer (take n_train _)) as [train_X|]; [|done].
  cbn [rbind].
  by destruct (transform imputer (List.skipn n_train _)) as [test_X|].
Qed.

End ReadInputEquation.

(** ** When the split is refused *)

Section SplitEdges.
Context `{Numpy}.

Lemma validate_shuffle_split_range n test_size n_train n_test :
  validate_shuffle_split n test_size = Ok (n_train, n_test) →
  match test_size with
  | Fraction t => (0 < t)%Q ∧ (t < 1)%Q
  | Count k => (0 < k < Z.of_nat n)%Z ∧ n_test = Z.to_nat k
  end.
Proof.
  unfold validate_shuffle_split. destruct test_size as [t|k]; cbn beta iota.
  - destruct (Qle_bool t 0) eqn:H0; [discriminate|].
    destruct (Qle_bool 1 t) eqn:H1; [discriminate|]. intros _.
    split; apply Qnot_le_lt; intros Hle; apply Qle_bool_iff in Hle; congruence.
  - destruct (Z.leb_spec (Z.of_nat n) k); [discriminate|].
    destruct (Z.leb_spec k 0); [discriminate|]. cbn.
    destruct (Nat.eqb _ 0); [discriminate|]. intros [= _ <-]. lia.
Qed.

(** A quarter of two or more rows leaves a row to train on. *)
Lemma validate_shuffle_split_default (n : nat) :
  (2 ≤ n)%nat → ∃ n_train n_test,
    validate_shuffle_split n (Fraction (1 # 4)) = Ok (n_train, n_test).
Proof.
  intros Hn. unfold validate_shuffle_split. cbn [negb orb Qle_bool].
  change (Qle_bool (1 # 4) 0) with false. change (Qle_bool 1 (1 # 4)) with false.
  cbn [negb orb].
  assert (Qceiling (fl ((1 # 4) * inject_Z (Z.of_nat n))) <= Z.of_nat n - 1)%Z
    as Hceil.
  { rewrite <- (Qceiling_Z (Z.of_nat n - 1)).
    apply Qceiling_resp_le. rewrite <- (fl_int (Z.of_nat n - 1)).
    apply fl_mono. unfold Qle, Qmult, inject_Z. cbn. lia. }
  destruct (Nat.eqb_spec
              (n - Z.to_nat (Qceiling (fl ((1 # 4) * inject_Z (Z.of_nat n))))) 0)
    as [Hz|_]; [lia|]. eauto.
Qed.

End SplitEdges.

(** ** Shapes *)

Section ShapeFacts.
Context `{Numpy}.

Lemma compress_filter_nil {A B} (f : A → bool) (cols : list A) (r : list B) :
  List.filter f cols = [] → compress (map f cols) r = [].
Proof.
  revert r. induction cols as [|c cols IH]; intros r; [by destruct r|].
  cbn. destruct (f c); [discriminate|]. destruct r; [done|]. apply IH.
Qed.

Lemma labelled_well_formed data :
  well_formed data = true →
  Forall (λ r, cells_ok (columns data) r = true) (labelled data).
Proof.
  intros Hwf. apply Forall_forall. intros r Hr.
  apply list_elem_of_In, filter_In in Hr as [Hr _].
  unfold well_formed in Hwf. rewrite forallb_forall in Hwf. by apply Hwf.
Qed.

(** Every cell of a feature column of a well-formed row is a float. *)
Lemma to_float_features cols r :
  cells_ok cols r = true →
  ∃ fr, mapM to_float (compress (map is_feature cols) r) = Ok fr ∧
        length fr = length (List.filter is_feature cols).
Proof.
  revert r. induction cols as [|c cols IH]; intros [|x r]; cbn; try done.
  - by exists [].
  - intros [Hx Hr]%andb_true_iff. destruct (IH r Hr) as (fr & Hfr & Hlen).
    destruct (is_feature c) eqn:Hc; [|by exists fr].
    assert (∃ v, to_float x = Ok v) as [v Hv].
    { destruct x as [| |s]; cbn; eauto.
      unfold is_feature in Hc. apply andb_true_iff in Hc as [_ Hc].
      apply negb_true_iff in Hc. congruence. }
    cbn. rewrite Hv, Hfr. cbn. exists (v :: fr). by rewrite <- Hlen.
Qed.

Lemma mapM_features cols L :
  Forall (λ r, cells_ok cols r = true) L →
  ∃ Xf, mapM (mapM to_float) (map (compress (map is_feature cols)) L) = Ok Xf ∧
        length Xf = length L ∧
        Forall (λ r, length r = length (List.filter is_feature cols)) Xf.
Proof.
  induction 1 as [|r L Hr _ (Xf & HXf & Hlen & Hall)]; cbn.
  - by exists [].
  - destruct (to_float_features cols r Hr) as (fr & Hfr & Hlfr).
    rewrite Hfr, HXf. cbn. exists (fr :: Xf).
    split_and!; [done|cbn; by rewrite Hlen|]. by constructor.
Qed.

(** The input check passes on a block of feature rows that is not empty, when
    there is a feature column at all. *)
Lemma check_array_features cols L :
  L ≠ [] → List.filter is_feature cols ≠ [] →
  Forall (λ r, cells_ok cols r = true) L →
  ∃ Xf, check_array (map (compress (map is_feature cols)) L) = Ok Xf ∧
        length Xf = length L ∧
        n_cols Xf = length (List.filter is_feature cols) ∧
        Forall (λ r, length r = length (List.filter is_feature cols)) Xf.
Proof.
  intros HL Hcols Hall.
  destruct (mapM_features cols L Hall) as (Xf & HXf & Hlen & Hw).
  destruct L as [|r L]; [done|]. apply Forall_cons in Hall as [Hr _].
  destruct (to_float_features cols r Hr) as (fr & Hfr & Hlfr).
  apply mapM_Ok, Forall2_length in Hfr.
  assert (length (List.filter is_feature cols) ≠ 0) as Hk by by destruct (List.filter _ _).
  unfold check_array, n_cols. cbn [map length hd Nat.eqb orb].
  destruct (Nat.eqb_spec (length (compress (map is_feature cols) r)) 0) as [Hz|_];
    [lia|].
  exists Xf. split_and!; try done.
  destruct Xf as [|f0 Xf]; [done|]. by apply Forall_cons in Hw as [Hf0 _].
Qed.

Lemma impute_row_length stats row :
  length row = length stats →
  length (impute_row stats row) = length (omap id stats).
Proof.
  revert row. induction stats as [|s stats IH]; intros [|c row]; cbn; try done.
  intros [= Hlen]. destruct s; cbn; by rewrite IH.
Qed.

(** With a statistic for every column, a row without a missing entry passes
    through as it is. *)
Lemma impute_row_id stats row :
  length row = length stats → Forall is_Some stats → Forall is_Some row →
  impute_row stats row = row.
Proof.
  revert row. induction stats as [|s stats IH]; intros [|c row]; cbn; try done.
  intros [= Hlen] [[m ->] Hstats]%Forall_cons [[v ->] Hrow]%Forall_cons.
  by rewrite IH.
Qed.

Lemma to_float_present r fr :
  mapM to_float r = Ok fr → Forall (λ c, isna c = false) r → Forall is_Some fr.
Proof.
  intros HM%mapM_Ok Hr. induction HM as [|c v r fr Hc _ IH]; [constructor|].
  apply Forall_cons in Hr as [Hna Hr]. constructor; [|by apply IH].
  destruct c; [done|..]; cbn in Hc; by simplify_eq.
Qed.

Lemma check_array_present X Xf :
  check_array X = Ok Xf →
  Forall (Forall (λ c, isna c = false)) X → Forall (Forall is_Some) Xf.
Proof.
  unfold check_array. destruct (_ || _); [done|].
  intros HM%mapM_Ok HX. induction HM as [|r fr X Xf Hr _ IH]; [constructor|].
  apply Forall_cons in HX as [Hna HX]. constructor; [|by apply IH].
  by eapply to_float_present.
Qed.

(** A column whose first entry is present has a median. *)
Lemma column_median_present j (r : list (option num)) X :
  j < length r → Forall is_Some r → is_Some (column_median j (r :: X)).
Proof.
  intros Hj Hr. unfold column_median, observed. cbn [omap].
  destruct (nth j r None) as [v|] eqn:Hnth.
  - cbn. rewrite Hnth. by eexists.
  - exfalso. rewrite Forall_forall in Hr.
    destruct (Hr (nth j r None)) as [v Hv]; [|congruence].
    apply list_elem_of_In, nth_In. lia.
Qed.

Lemma fit_statistics imputer X imputer' Xf :
  check_array X = Ok Xf → fit imputer X = Ok imputer' →
  statistics_ imputer' = map (λ j, column_median j Xf) (seq 0 (n_cols Xf)).
Proof. unfold fit. intros ->. cbn. by intros [= <-]. Qed.

Lemma fit_statistics_length imputer X imputer' Xf :
  check_array X = Ok Xf → fit imputer X = Ok imputer' →
  length (statistics_ imputer') = n_cols Xf.
Proof.
  unfold fit. intros ->. cbn. intros [= <-]. cbn.
  by rewrite length_map, length_seq.
Qed.

End ShapeFacts.

(** ** The data loader: errors, shapes, complete data *)

Section LoaderEdges.
Context `{Numpy} `{!Pandas}.

Lemma features_take n data :
  take n (features data)
  = map (compress (map is_feature (columns data))) (take n (labelled data)).
Proof. unfold features. apply firstn_map. Qed.

Lemma features_skipn n data :
  List.skipn n (features data)
  = map (compress (map is_feature (columns data))) (List.skipn n (labelled data)).
Proof. unfold features. apply skipn_map. Qed.

(** The imputer cannot be fitted on rows without columns. *)
Lemma fit_feature_columns data n imputer :
  fit unfitted (take n (features data)) = Ok imputer →
  feature_columns data ≠ [].
Proof.
  intros Hfit Hnil. revert Hfit. unfold fit, check_array, n_cols.
  rewrite features_take.
  destruct (take n (labelled data)) as [|r L]; [done|]. cbn [map hd length].
  rewrite (compress_filter_nil _ _ r Hnil). done.
Qed.

(** X1: [read_input] raises [FileNotFoundError] when the file is not there,
    leaving the world untouched; when the file is there it raises what the
    parser raises, and [KeyError] when the parsed frame has no [SalePrice]
    column, whatever [test_size] is. *)
Theorem read_input_missing_file_or_column file_name test_size w :
  match fs w !! file_name with
  | None => read_input file_name test_size w = (Raise FileNotFoundError, w)
  | Some b =>
      match parse_csv b with
      | Raise e => read_input file_name test_size w = (Raise e, opened file_name w)
      | Ok data =>
          get_loc "SalePrice" (columns data) = None →
          read_input file_name test_size w = (Raise KeyError, opened file_name w)
      end
  end.
Proof.
  rewrite read_input_eq. destruct (fs w !! file_name) as [b|]; [|done].
  destruct (parse_csv b) as [data|e]; [|done].
  intros Hj. cbn. unfold split_and_impute. by rewrite Hj.
Qed.

(** X2: [read_input] returns only on a frame with a [SalePrice] column, two
    or more rows that have a target, and a feature column, and only for a
    test fraction strictly between 0 and 1 or a test count strictly between
    0 and the number of those rows. *)
Theorem read_input_returns_only_if file_name test_size w b data res w' :
  fs w !! file_name = Some b → parse_csv b = Ok data →
  read_input file_name test_size w = (Ok res, w') →
  is_Some (get_loc "SalePrice" (columns data)) ∧
  (2 ≤ length (labelled data))%nat ∧
  feature_columns data ≠ [] ∧
  match default (Fraction (1 # 4)) test_size with
  | Fraction t => (0 < t)%Q ∧ (t < 1)%Q
  | Count k => (0 < k < Z.of_nat (length (labelled data)))%Z
  end.
Proof.
  intros Hb Hp Hr.
  apply read_input_Ok in Hr
    as (b' & d & n_train & n_test & i & trX & teX & Hb' & Hp' & Hj & Hv & Hfit & _).
  rewrite Hb in Hb'. injection Hb' as <-. rewrite Hp in Hp'. injection Hp' as <-.
  pose proof (validate_shuffle_split_Ok _ _ _ _ Hv) as (Hsum & Hpos1 & Hpos2).
  apply validate_shuffle_split_range in Hv.
  split_and!; [done|lia|by eapply fit_feature_columns|].
  destruct (default _ test_size); [done|]. by destruct Hv.
Qed.

(** What a returning [read_input] has checked, on a well-formed frame. *)
Lemma read_input_checked file_name test_size w b data res w' :
  fs w !! file_name = Some b → parse_csv b = Ok data → well_formed data = true →
  read_input file_name test_size w = (Ok res, w') →
  ∃ n_train Xf Yf,
    (0 < n_train < length (labelled data))%nat ∧
    check_array (take n_train (features data)) = Ok Xf ∧
    check_array (List.skipn n_train (features data)) = Ok Yf ∧
    length (statistics_ (snd res)) = length (feature_columns data) ∧
    Forall (λ r, length r = length (feature_columns data)) Xf ∧
    Forall (λ r, length r = length (feature_columns data)) Yf ∧
    fit unfitted (take n_train (features data)) = Ok (snd res) ∧
    fst (fst (fst res)) = map (impute_row (statistics_ (snd res))) Xf ∧
    fst (snd (fst res)) = map (impute_row (statistics_ (snd res))) Yf.
Proof.
  intros Hb Hp Hwf Hr.
  apply read_input_Ok in Hr
    as (b' & d & n_train & n_test & i & trX & teX & Hb' & Hp' & Hj & Hv & Hfit
        & Htr & Hte & -> & _).
  rewrite Hb in Hb'. injection Hb' as <-. rewrite Hp in Hp'. injection Hp' as <-.
  apply validate_shuffle_split_Ok in Hv as (Hsum & Hpos1 & Hpos2).
  pose proof (fit_feature_columns _ _ _ Hfit) as Hcols.
  pose proof (labelled_well_formed _ Hwf) as Hall.
  destruct (check_array_features (columns data) (take n_train (labelled data)))
    as (Xf & HXf & _ & HnX & HwX).
  { intros Hnil. apply (f_equal length) in Hnil.
    rewrite length_take in Hnil. cbn in Hnil. lia. }
  { done. }
  { by apply Forall_take. }
  destruct (check_array_features (columns data) (List.skipn n_train (labelled data)))
    as (Yf & HYf & _ & HnY & HwY).
  { intros Hnil. apply (f_equal length) in Hnil.
    rewrite length_skipn in Hnil. cbn in Hnil. lia. }
  { done. }
  { by apply Forall_drop. }
  rewrite <- features_take in HXf. rewrite <- features_skipn in HYf.
  exists n_train, Xf, Yf. cbn [fst snd].
  apply transform_Ok in Htr as (Xf' & HXf' & -> & _).
  apply transform_Ok in Hte as (Yf' & HYf' & -> & _).
  rewrite HXf in HXf'. injection HXf' as <-.
  rewrite HYf in HYf'. injection HYf' as <-.
  rewrite (fit_statistics_length _ _ _ _ HXf Hfit), HnX.
  split_and!; (done || lia).
Qed.

(** X3: on a well-formed frame of finite values with a [SalePrice] column,
    two or more rows that have a target and a feature column, [read_input]
    at its default test size returns. *)
Theorem read_input_returns `{!Finite} file_name w b data :
  fs w !! file_name = Some b → parse_csv b = Ok data → well_formed data = true →
  all_finite (features data) = true →
  is_Some (get_loc "SalePrice" (columns data)) →
  (2 ≤ length (labelled data))%nat →
  feature_columns data ≠ [] →
  ∃ res, read_input file_name None w = (Ok res, opened file_name w).
Proof.
  intros Hb Hp Hwf _ [j Hj] Hn Hcols.
  rewrite read_input_eq, Hb, Hp. cbn [rbind default].
  unfold split_and_impute. rewrite Hj.
  destruct (validate_shuffle_split_default _ Hn) as (n_train & n_test & Hv).
  rewrite Hv. cbn [rbind].
  apply validate_shuffle_split_Ok in Hv as (Hsum & Hpos1 & Hpos2).
  pose proof (labelled_well_formed _ Hwf) as Hall.
  destruct (check_array_features (columns data) (take n_train (labelled data)))
    as (Xf & HXf & _ & HnX & _).
  { intros Hnil. apply (f_equal length) in Hnil.
    rewrite length_take in Hnil. cbn in Hnil. lia. }
  { done. }
  { by apply Forall_take. }
  destruct (check_array_features (columns data) (List.skipn n_train (labelled data)))
    as (Yf & HYf & _ & HnY & _).
  { intros Hnil. apply (f_equal length) in Hnil.
    rewrite length_skipn in Hnil. cbn in Hnil. lia. }
  { done. }
  { by apply Forall_drop. }
  rewrite <- features_take in HXf. rewrite <- features_skipn in HYf.
  unfold fit, transform. rewrite HXf, HYf. cbn [rbind statistics_].
  rewrite length_map, length_seq, Nat.eqb_refl. cbn [negb rbind].
  rewrite HnY, <- HnX, Nat.eqb_refl. cbn [negb rbind]. eauto.
Qed.

(** X4: on a well-formed frame the imputer holds one statistic per feature
    column, and every row of the two matrices that [read_input] returns has
    one entry per statistic that is not NaN: the columns without a value in
    the training block are gone from both. *)
Theorem read_input_widths
    file_name test_size w b data train_X train_y test_X test_y imputer w' :
  fs w !! file_name = Some b → parse_csv b = Ok data → well_formed data = true →
  read_input file_name test_size w
    = (Ok ((train_X, train_y), (test_X, test_y), imputer), w') →
  length (statistics_ imputer) = length (feature_columns data) ∧
  Forall (λ r, length r = length (omap id (statistics_ imputer))) train_X ∧
  Forall (λ r, length r = length (omap id (statistics_ imputer))) test_X.
Proof.
  intros Hb Hp Hwf Hr.
  destruct (read_input_checked _ _ _ _ _ _ _ Hb Hp Hwf Hr)
    as (n & Xf & Yf & _ & _ & _ & Hstats & HwX & HwY & _ & HtrX & HteX).
  cbn [fst snd] in *. subst train_X test_X.
  split_and!; [done|..]; apply Forall_map;
    (eapply Forall_impl; [eassumption|]); intros r Hlen;
    apply impute_row_length; congruence.
Qed.

(** X5: with an integer [test_size] of [k], [read_input] holds out exactly
    [k] rows: the last [k] rows that have a target. *)
Theorem read_input_count_holdout
    file_name k w b data train_X train_y test_X test_y imputer w' :
  fs w !! file_name = Some b → parse_csv b = Ok data →
  read_input file_name (Some (Count k)) w
    = (Ok ((train_X, train_y), (test_X, test_y), imputer), w') →
  (0 < k < Z.of_nat (length (labelled data)))%Z ∧
  length test_X = Z.to_nat k ∧
  test_y = List.skipn (length (labelled data) - Z.to_nat k)%nat (targets data) ∧
  length train_X = (length (labelled data) - Z.to_nat k)%nat.
Proof.
  intros Hb Hp Hr.
  apply read_input_Ok in Hr
    as (b' & d & n_train & n_test & i & trX & teX & Hb' & Hp' & _ & Hv & _
        & Htr & Hte & Hres & _).
  rewrite Hb in Hb'. injection Hb' as <-. rewrite Hp in Hp'. injection Hp' as <-.
  injection Hres as -> -> -> -> ->.
  pose proof (validate_shuffle_split_Ok _ _ _ _ Hv) as (Hsum & _ & _).
  apply validate_shuffle_split_range in Hv as [Hk ->].
  apply transform_Ok in Htr as (_ & _ & _ & ->).
  apply transform_Ok in Hte as (_ & _ & _ & ->).
  assert (length (features data) = length (labelled data)) as HlX
    by apply length_map.
  rewrite length_take, length_skipn, HlX.
  replace (length (labelled data) - Z.to_nat k)%nat with n_train by lia.
  split_and!; (done || lia).
Qed.

(** X7: on a well-formed frame without a missing feature value,
    [read_input] fills nothing and drops no column: the imputer has a median
    for every feature column, and the two matrices are the feature cells of
    the two blocks of rows, as floats. *)
Theorem read_input_complete_data
    file_name test_size w b data train_X train_y test_X test_y imputer w' :
  fs w !! file_name = Some b → parse_csv b = Ok data → well_formed data = true →
  Forall (Forall (λ c, isna c = false)) (features data) →
  read_input file_name test_size w
    = (Ok ((train_X, train_y), (test_X, test_y), imputer), w') →
  Forall is_Some (statistics_ imputer) ∧
  check_array (take (length train_X) (features data)) = Ok train_X ∧
  check_array (List.skipn (length train_X) (features data)) = Ok test_X.
Proof.
  intros Hb Hp Hwf Hfull Hr.
  destruct (read_input_checked _ _ _ _ _ _ _ Hb Hp Hwf Hr)
    as (n & Xf & Yf & Hn & HXf & HYf & Hstats & HwX & HwY & Hfit & HtrX & HteX).
  cbn [fst snd] in *.
  pose proof (check_array_present _ _ HXf (Forall_take _ _ _ Hfull)) as HsX.
  pose proof (check_array_present _ _ HYf (Forall_drop _ _ _ Hfull)) as HsY.
  assert (Forall is_Some (statistics_ imputer)) as Hall.
  { rewrite (fit_statistics _ _ _ _ HXf Hfit).
    apply check_array_Ok in HXf as Hlen.
    destruct Xf as [|r Xf]; [cbn in Hlen; lia|].
    apply Forall_cons in HsX as [Hr0 _].
    apply Forall_map, Forall_forall. intros j Hj.
    apply list_elem_of_In, in_seq in Hj. apply column_median_present; [|done].
    unfold n_cols in Hj. cbn in Hj. lia. }
  assert (∀ Zf, Forall (λ r, length r = length (feature_columns data)) Zf →
                Forall (Forall is_Some) Zf →
                map (impute_row (statistics_ imputer)) Zf = Zf) as Hid.
  { intros Zf Hw Hs. rewrite <- (map_id Zf) at 2. apply map_ext_Forall.
    apply Forall_forall. intros r Hr'.
    rewrite Forall_forall in Hw, Hs.
    apply impute_row_id; [rewrite Hstats|done|]; auto. }
  rewrite Hid in HtrX, HteX by done. subst train_X test_X.
  apply check_array_Ok in HXf as Hlen. destruct Hlen as [Hlen _].
  rewrite length_take in Hlen.
  assert (length (features data) = length (labelled data)) as HlX
    by apply length_map.
  replace (length Xf) with n by lia. done.
Qed.

(** X6: [read_input] changes no file and no bucket, whether it returns or
    raises; the only thing it does to the world is to read [file_name], when
    that file is there. *)
Theorem read_input_reads_only file_name test_size w :
  snd (read_input file_name test_size w)
  = match fs w !! file_name with
    | None => w
    | Some _ => opened file_name w
    end.
Proof. rewrite read_input_eq. by destruct (fs w !! file_name). Qed.

End LoaderEdges.

(** ** The object store *)

Section StorageEdges.
Context `{Numpy} `{!Pandas} `{!XGBoost} `{!Metrics} `{!Joblib}.

Lemma upload_file_to_gcs_eq bucket_name source destination w :
  upload_file_to_gcs bucket_name source destination w
  = match gcs w with
    | None => (Raise ClientError, w)
    | Some buckets =>
        match buckets !! bucket_name with
        | None => (Raise NotFound, w)
        | Some objects =>
            match fs w !! source with
            | None => (Raise FileNotFoundError, w)
            | Some content =>
                (Ok tt,
                 {| fs := fs w;
                    unwritable := unwritable w;
                    gcs := Some (<[bucket_name := <[destination := content]> objects]>
                                   buckets);
                    trace := trace w ++
                      [Opened source; BlobPut bucket_name destination;
                       Said (MsgUploaded source bucket_name destination)] |})
            end
        end
    end.
Proof.
  unfold upload_file_to_gcs, bind, storage_Client, get_bucket, lift,
    upload_from_filename, emit.
  destruct (gcs w) as [buckets|] eqn:Hg; [|done].
  destruct (buckets !! bucket_name) as [objects|] eqn:Hbk; [|done].
  destruct (fs w !! source) as [content|]; [|done].
  rewrite Hg, Hbk. cbn. by rewrite <- app_assoc.
Qed.

Lemma download_file_from_gcs_eq bucket_name source destination w :
  download_file_from_gcs bucket_name source destination w
  = match gcs w with
    | None => (Raise ClientError, w)
    | Some buckets =>
        match buckets !! bucket_name with
        | None => (Raise NotFound, w)
        | Some objects =>
            match unwritable w !! destination with
            | Some e => (Raise e, w)
            | None =>
                match objects !! source with
                | None =>
                    (Raise NotFound,
                     {| fs := delete destination (fs w);
                        unwritable := unwritable w;
                        gcs := gcs w;
                        trace := trace w ++
                          [Written destination; Removed destination] |})
                | Some content =>
                    (Ok tt,
                     {| fs := <[destination := content]> (fs w);
                        unwritable := unwritable w;
                        gcs := gcs w;
                        trace := trace w ++
                          [BlobGet bucket_name source; Written destination;
                           Said (MsgDownloaded bucket_name source destination)] |})
                end
            end
        end
    end.
Proof.
  unfold download_file_from_gcs, bind, storage_Client, get_bucket, lift,
    download_to_filename, emit.
  destruct (gcs w) as [buckets|] eqn:Hg; [|done].
  destruct (buckets !! bucket_name) as [objects|] eqn:Hbk; [|done].
  destruct (unwritable w !! destination) as [e|]; [done|].
  rewrite ?Hg; cbn; rewrite ?Hbk; cbn.
  destruct (objects !! source) as [content|]; [|done].
  cbn; rewrite ?Hg. by rewrite <- app_assoc.
Qed.

Lemma lookup_blob_insert_ne
    (buckets : gmap string (gmap string bytes)) (objects : gmap string bytes)
    (b k : string) (c : bytes) (bucket key : string) :
  buckets !! b = Some objects → (bucket, key) ≠ (b, k) →
  match <[b := <[k := c]> objects]> buckets !! bucket with
  | Some o => o !! key
  | None => None
  end
  = match buckets !! bucket with
    | Some o => o !! key
    | None => None
    end.
Proof.
  intros Hbk Hne. destruct (decide (bucket = b)) as [->|Hb].
  - rewrite lookup_insert_eq, Hbk. rewrite lookup_insert_ne; [done|]. congruence.
  - by rewrite lookup_insert_ne.
Qed.

(** X8: an upload looks for a storage client, then for the bucket, then for
    the local file, and raises at the first that is missing ([ClientError],
    [NotFound], [FileNotFoundError]) without changing anything. *)
Theorem upload_file_to_gcs_errors bucket_name source destination w :
  (gcs w = None →
   upload_file_to_gcs bucket_name source destination w = (Raise ClientError, w)) ∧
  (∀ buckets, gcs w = Some buckets → buckets !! bucket_name = None →
   upload_file_to_gcs bucket_name source destination w = (Raise NotFound, w)) ∧
  (∀ buckets, gcs w = Some buckets → is_Some (buckets !! bucket_name) →
   fs w !! source = None →
   upload_file_to_gcs bucket_name source destination w
   = (Raise FileNotFoundError, w)).
Proof.
  rewrite upload_file_to_gcs_eq. split_and!.
  - by intros ->.
  - by intros buckets -> ->.
  - by intros buckets -> [objects ->] ->.
Qed.

(** X9: an upload that returns has stored the contents of the local file
    under the key, replacing what was there; every other object of every
    bucket, and every local file, is as before. *)
Theorem upload_file_to_gcs_frame bucket_name source destination w w' :
  upload_file_to_gcs bucket_name source destination w = (Ok tt, w') →
  fs w' = fs w ∧
  blob_at w' bucket_name destination = fs w !! source ∧
  is_Some (fs w !! source) ∧
  ∀ bucket key, (bucket, key) ≠ (bucket_name, destination) →
                blob_at w' bucket key = blob_at w bucket key.
Proof.
  rewrite upload_file_to_gcs_eq. unfold blob_at.
  destruct (gcs w) as [buckets|]; [|done].
  destruct (buckets !! bucket_name) as [objects|] eqn:Hbk; [|done].
  destruct (fs w !! source) as [content|]; [|done].
  intros [= <-]. cbn. split_and!; [done| |done|].
  - rewrite lookup_insert_eq. apply lookup_insert_eq.
  - intros bucket key Hne. by apply lookup_blob_insert_ne.
Qed.


(** X11: a download never changes a bucket and changes no local file but
    its destination.  When it returns, the object was there, the destination
    could be written and holds the object.  It raises without changing
    anything when there is no client, no bucket, or the destination cannot
    be opened for writing; when only the object is missing it raises
    [NotFound] and the destination file is gone. *)
Theorem download_file_from_gcs_result bucket_name source destination w r w' :
  download_file_from_gcs bucket_name source destination w = (r, w') →
  gcs w' = gcs w ∧
  (∀ path, path ≠ destination → fs w' !! path = fs w !! path) ∧
  match r with
  | Ok _ =>
      is_Some (blob_at w bucket_name source) ∧
      unwritable w !! destination = None ∧
      fs w' !! destination = blob_at w bucket_name source
  | Raise e =>
      (blob_at w bucket_name source = None ∨ unwritable w !! destination = Some e) ∧
      match gcs w with
      | None => e = ClientError ∧ w' = w
      | Some buckets =>
          match buckets !! bucket_name with
          | None => e = NotFound ∧ w' = w
          | Some _ =>
              match unwritable w !! destination with
              | Some e' => e = e' ∧ w' = w
              | None => e = NotFound ∧ fs w' !! destination = None
              end
          end
      end
  end.
Proof.
  rewrite download_file_from_gcs_eq. unfold blob_at.
  destruct (gcs w) as [buckets|] eqn:Hg.
  2: { intros [= <- <-]. rewrite Hg. split_and!; auto. }
  destruct (buckets !! bucket_name) as [objects|].
  2: { intros [= <- <-]. rewrite Hg. split_and!; auto. }
  destruct (unwritable w !! destination) as [e|].
  { intros [= <- <-]. rewrite Hg. split_and!; auto. }
  destruct (objects !! source) as [content|].
  - intros [= <- <-]. cbn. split_and!; [done| |done|done|].
    + intros path Hne. by rewrite lookup_insert_ne.
    + by rewrite lookup_insert_eq.
  - intros [= <- <-]. cbn. split_and!; [done| |by left|done|].
    + intros path Hne. by rewrite lookup_delete_ne.
    + apply lookup_delete_eq.
Qed.

(** X12: of two saves to one path that can be written the later wins: both
    return, a load from that path unpickles the second model, every other
    file is as before the first save, and no bucket changes.  To a path that
    cannot be opened for writing a save raises what [open] raises and
    changes nothing. *)
Theorem save_model_last_wins model1 model2 model_file w :
  match unwritable w !! model_file with
  | Some e => save_model model1 model_file w = (Raise e, w)
  | None =>
      ∃ w1 w2,
        save_model model1 model_file w = (Ok tt, w1) ∧
        save_model model2 model_file w1 = (Ok tt, w2) ∧
        fst (joblib_load model_file w2) = loads (dumps model2) ∧
        (∀ path, path ≠ model_file → fs w2 !! path = fs w !! path) ∧
        gcs w2 = gcs w
  end.
Proof.
  destruct (unwritable w !! model_file) as [e|] eqn:Hw.
  - unfold save_model, bind, joblib_dump. by rewrite Hw.
  - destruct (save_model_spec model1 model_file w Hw)
      as (w1 & Hs1 & Hfs1 & Hg1 & Hu1 & _).
    rewrite <- Hu1 in Hw.
    destruct (save_model_spec model2 model_file w1 Hw)
      as (w2 & Hs2 & Hfs2 & Hg2 & _).
    exists w1, w2. split_and!; [done|done|..].
    + unfold joblib_load. by rewrite Hfs2, lookup_insert_eq.
    + intros path Hne. by rewrite Hfs2, Hfs1, !lookup_insert_ne.
    + congruence.
Qed.

End StorageEdges.

(** ** Training and serving together *)

Section ServeEdges.
Context `{Numpy} `{!Pandas} `{!XGBoost} `{!Metrics} `{!Joblib}.
Variable GCP_PROJECT : string.

(** Once there is a model and the save has returned, [train] is the upload
    run on a world that has the pickled model on the disk and the buckets as
    they were. *)
Lemma train_after_fit self w model :
  fst (fitted_model self w) = Ok model →
  unwritable w !! model_file self = None →
  ∃ w1, fs w1 = <[model_file self := dumps model]> (fs w) ∧
        gcs w1 = gcs w ∧
        train GCP_PROJECT self w
        = upload_file_to_gcs (GCS_BUCKET_ID GCP_PROJECT)
            (model_file self) (model_file self) w1.
Proof.
  intros Hfit Hw. rewrite train_unfold. unfold bind at 1.
  destruct (quiet_fitted_model self w) as (Hfs & Hgcs & Hunw & _).
  destruct (fitted_model self w) as [[m|e] w0]; cbn [fst snd] in *; [|done].
  injection Hfit as ->. rewrite <- Hunw in Hw.
  destruct (save_model_spec model (model_file self) w0 Hw)
    as (w1 & Hsave & Hfs1 & Hgcs1 & _).
  unfold bind. rewrite Hsave. exists w1. split_and!; congruence.
Qed.

(** When the save raises, [train] ends there, files and buckets as they
    were. *)
Lemma train_save_raises self w model e :
  fst (fitted_model self w) = Ok model →
  unwritable w !! model_file self = Some e →
  ∃ w0, train GCP_PROJECT self w = (Raise e, w0) ∧
        fs w0 = fs w ∧ gcs w0 = gcs w.
Proof.
  intros Hfit Hw. rewrite train_unfold. unfold bind at 1.
  destruct (quiet_fitted_model self w) as (Hfs & Hgcs & Hunw & _).
  destruct (fitted_model self w) as [[m|e'] w0]; cbn [fst snd] in *; [|done].
  injection Hfit as ->. rewrite <- Hunw in Hw.
  unfold bind. rewrite (save_model_raises _ _ _ _ Hw). by exists w0.
Qed.

Lemma train_keeps_file self w model :
  fst (fitted_model self w) = Ok model →
  unwritable w !! model_file self = None →
  fs (snd (train GCP_PROJECT self w)) = <[model_file self := dumps model]> (fs w).
Proof.
  intros Hfit Hw.
  destruct (train_after_fit self w model Hfit Hw) as (w1 & Hfs & _ & ->).
  destruct (upload_file_to_gcs _ _ _ w1) as [r w'] eqn:Hup.
  apply upload_file_to_gcs_spec in Hup as [Hfs' _]. cbn. congruence.
Qed.

(** X13: without the model file a first [predict] raises
    [FileNotFoundError] and leaves the object and the world as they were;
    the failure is not remembered: once the file is there, the next call on
    the same object loads it and answers. *)
Theorem predict_missing_model_file self w X feature_names :
  trained_model self = None → fs w !! model_file self = None →
  predict X feature_names (self, w) = (Raise FileNotFoundError, (self, w)) ∧
  ∀ files buckets b m X' names,
    files !! model_file self = Some b → loads b = Ok m →
    fst (predict X' names
           (exec GCP_PROJECT (snd (predict X feature_names (self, w)))
              (Elsewhere files buckets)))
    = first_pair (xgb_predict m X').
Proof.
  intros Hnone Hfile.
  assert (predict X feature_names (self, w) = (Raise FileNotFoundError, (self, w)))
    as Hfail by (by rewrite (predict_first_use _ _ _ _ Hnone), Hfile).
  split; [done|]. intros files buckets b m X' names Hb Hm.
  rewrite Hfail. unfold exec. cbn [fst snd].
  rewrite (predict_first_use _ _ _ _ Hnone). cbn [fs]. by rewrite Hb, Hm.
Qed.

(** X14: a [predict] that ends with a model in the object can be repeated:
    the same call again, with any feature names, gives the same result and
    changes nothing, whether the first call returned or raised. *)
Theorem predict_twice s X names1 names2 :
  is_Some (trained_model (fst (snd (predict X names1 s)))) →
  predict X names2 (snd (predict X names1 s)) = predict X names1 s.
Proof.
  destruct s as [self w]. destruct (trained_model self) as [m|] eqn:Hm.
  - intros _. rewrite (predict_cached _ _ m) by done. cbn [snd].
    by rewrite (predict_cached _ _ m).
  - rewrite (predict_first_use _ _ _ _ Hm).
    destruct (fs w !! model_file self) as [b|]; cbn [fst snd].
    + cbn zeta. destruct (loads b) as [m|e]; cbn [fst snd].
      * intros _. by erewrite predict_cached.
      * rewrite Hm. by intros [? ?].
    + rewrite Hm. by intros [? ?].
Qed.

(** X15: retraining does not reach an object that holds a model: after a
    [train] that fitted a new model, [predict] on the object still answers
    from the old one, while the file on the disk, when the save could write
    it, is the pickle of the new one. *)
Theorem predict_after_retrain self w m model X feature_names :
  trained_model self = Some m →
  fst (fitted_model self w) = Ok model →
  let s' := exec GCP_PROJECT (self, w) CallTrain in
  fst (predict X feature_names s') = first_pair (xgb_predict m X) ∧
  (unwritable w !! model_file self = None →
   fs (snd s') !! model_file self = Some (dumps model)).
Proof.
  intros Hm Hfit. unfold exec. cbn [fst snd]. split.
  - by rewrite (predict_cached _ _ m).
  - intros Hw. rewrite (train_keeps_file _ _ _ Hfit Hw). apply lookup_insert_eq.
Qed.

(** X16: what [train] fitted and saved is what a new object serves: after a
    [train] that got as far as a model and could write [self.model_file],
    also when its upload raised, the first [predict] of an object without a
    model and with the same [model_file] answers from what joblib rebuilds
    from the pickle of that model.  After a [train] whose save raised, with
    no file at that path, the same [predict] raises [FileNotFoundError]. *)
Theorem train_then_predict self w model server X feature_names :
  fst (fitted_model self w) = Ok model →
  model_file server = model_file self → trained_model server = None →
  match unwritable w !! model_file self with
  | None =>
      ∀ model', loads (dumps model) = Ok model' →
        fst (predict X feature_names (server, snd (train GCP_PROJECT self w)))
        = first_pair (xgb_predict model' X)
  | Some _ =>
      fs w !! model_file self = None →
      fst (predict X feature_names (server, snd (train GCP_PROJECT self w)))
      = Raise FileNotFoundError
  end.
Proof.
  intros Hfit Hfile Hnone.
  rewrite (predict_first_use _ _ _ _ Hnone), Hfile.
  destruct (unwritable w !! model_file self) as [e|] eqn:Hw.
  - intros Hmissing.
    destruct (train_save_raises self w model e Hfit Hw) as (w0 & -> & Hfs & _).
    cbn [snd]. by rewrite Hfs, Hmissing.
  - intros model' Hload.
    rewrite (train_keeps_file _ _ _ Hfit Hw), lookup_insert_eq. cbn zeta.
    by rewrite Hload.
Qed.



(** X21: what [save_model] wrote is what the first [predict] loads: after a
    [save_model model file] that returned, the first [predict] of an object
    without a model whose [model_file] is [file] answers from what joblib
    rebuilds from the pickle of [model], and the object keeps it. *)
Theorem save_model_then_first_predict
    model model' file w w1 self X feature_names :
  save_model model file w = (Ok tt, w1) →
  loads (dumps model) = Ok model' →
  model_file self = file → trained_model self = None →
  fst (predict X feature_names (self, w1)) = first_pair (xgb_predict model' X) ∧
  trained_model (fst (snd (predict X feature_names (self, w1)))) = Some model'.
Proof.
  intros Hsave Hload <- Hnone.
  destruct (unwritable w !! model_file self) as [e|] eqn:Hw.
  { rewrite (save_model_raises _ _ _ _ Hw) in Hsave. done. }
  destruct (save_model_spec model (model_file self) w Hw)
    as (w1' & Hsave' & Hfs & _).
  rewrite Hsave in Hsave'. injection Hsave' as <-.
  rewrite (predict_first_use _ _ _ _ Hnone), Hfs, lookup_insert_eq. cbn zeta.
  by rewrite Hload.
Qed.

End ServeEdges.

(** ** The further properties on the small instance *)

Section MoreExamples.
Import Ames.
#[local] Existing Instance numpy.
#[local] Existing Instance finite.
#[local] Existing Instance pandas.
#[local] Existing Instance xgboost.
#[local] Existing Instance metrics.
#[local] Existing Instance joblib.
#[local] Open Scope Q_scope.

(** The serving machine has no data set. *)
Lemma read_input_missing_file_or_column_witness :
  read_input csv None serving = (Raise FileNotFoundError, serving).
Proof. exact (read_input_missing_file_or_column csv None serving). Defined.

Lemma read_input_returns_only_if_witness :
  is_Some (get_loc "SalePrice" (columns frame)) ∧
  (2 ≤ length (labelled frame))%nat ∧
  feature_columns frame ≠ [] ∧
  0 < 1 # 4 ∧ 1 # 4 < 1.
Proof.
  apply (read_input_returns_only_if csv None world "ames" frame
           ((train_X, train_y), (test_X, test_y), imputer) (after_read world)).
  - reflexivity.
  - reflexivity.
  - reflexivity.
Defined.

Lemma read_input_returns_witness :
  well_formed frame = true ∧
  ∃ res, read_input csv None world = (Ok res, opened csv world).
Proof.
  split; [reflexivity|].
  apply (read_input_returns csv world "ames" frame).
  - reflexivity.
  - reflexivity.
  - reflexivity.
  - reflexivity.
  - by eexists.
  - cbn. lia.
  - discriminate.
Defined.

(** Three feature columns, of which [Alley] has no value in the training
    block: two entries per row. *)
Lemma read_input_widths_witness :
  length (feature_columns frame) = 3%nat ∧
  length (statistics_ imputer) = length (feature_columns frame) ∧
  Forall (λ r, length r = length (omap id (statistics_ imputer))) train_X ∧
  Forall (λ r, length r = length (omap id (statistics_ imputer))) test_X.
Proof.
  split; [reflexivity|].
  apply (read_input_widths csv None world "ames" frame
           train_X train_y test_X test_y imputer (after_read world)).
  - reflexivity.
  - reflexivity.
  - reflexivity.
  - reflexivity.
Defined.

Lemma read_input_count_holdout_witness :
  (0 < 2 < Z.of_nat (length (labelled frame)))%Z ∧
  length test_X = Z.to_nat 2 ∧
  test_y = List.skipn (length (labelled frame) - Z.to_nat 2)%nat (targets frame) ∧
  length train_X = (length (labelled frame) - Z.to_nat 2)%nat.
Proof.
  apply (read_input_count_holdout csv 2%Z world "ames" frame
           train_X train_y test_X test_y imputer (after_read world)).
  - reflexivity.
  - reflexivity.
  - reflexivity.
Defined.

(** No client on the offline machine. *)
Lemma upload_file_to_gcs_errors_witness :
  upload_file_to_gcs "bucket" csv "key" offline = (Raise ClientError, offline).
Proof.
  destruct (upload_file_to_gcs_errors "bucket" csv "key" offline) as (Hclient & _).
  apply Hclient. reflexivity.
Defined.

Lemma upload_file_to_gcs_frame_witness :
  let w' := snd (upload_file_to_gcs "demo-fairing-xgboost-demo" csv "data" world) in
  fs w' = fs world ∧
  blob_at w' "demo-fairing-xgboost-demo" "data" = fs world !! csv ∧
  is_Some (fs world !! csv) ∧
  ∀ bucket key,
    (bucket, key) ≠ ("demo-fairing-xgboost-demo"%string, "data"%string) →
    blob_at w' bucket key = blob_at world bucket key.
Proof.
  apply (upload_file_to_gcs_frame "demo-fairing-xgboost-demo" csv "data" world).
  reflexivity.
Defined.


(** The demo bucket is empty: a download over the data set raises, and the
    data set is gone. *)
Lemma download_file_from_gcs_result_witness :
  let w' := snd (download_file_from_gcs "demo-fairing-xgboost-demo" "data" csv world) in
  fst (download_file_from_gcs "demo-fairing-xgboost-demo" "data" csv world)
    = Raise NotFound ∧
  gcs w' = gcs world ∧
  (∀ path, path ≠ csv → fs w' !! path = fs world !! path) ∧
  (blob_at world "demo-fairing-xgboost-demo" "data" = None ∨
   unwritable world !! csv = Some NotFound) ∧
  NotFound = NotFound ∧ fs w' !! csv = None.
Proof.
  split; [reflexivity|].
  exact (download_file_from_gcs_result "demo-fairing-xgboost-demo" "data" csv
           world (Raise NotFound) _ eq_refl).
Defined.


Lemma predict_missing_model_file_witness :
  predict two_rows [] (__init__, world) = (Raise FileNotFoundError, (__init__, world)) ∧
  ∀ files buckets b m X' names,
    files !! model_file __init__ = Some b → loads b = Ok m →
    fst (predict X' names
           (exec project (snd (predict two_rows [] (__init__, world)))
              (Elsewhere files buckets)))
    = first_pair (xgb_predict m X').
Proof.
  apply (predict_missing_model_file project __init__ world two_rows []).
  - reflexivity.
  - reflexivity.
Defined.

Lemma predict_twice_witness :
  predict two_rows ["a"%string] (snd (predict two_rows [] (__init__, serving)))
  = predict two_rows [] (__init__, serving).
Proof.
  apply (predict_twice (__init__, serving) two_rows [] ["a"%string]).
  by eexists.
Defined.

(** The old regressor takes five columns, the new one two: the object
    still answers a row of five, which the new model would refuse. *)
Lemma predict_after_retrain_witness :
  let s' := exec project (stale, world) CallTrain in
  first_pair (xgb_predict booster five_wide) = Raise ValueError ∧
  fst (predict five_wide [] s') = Ok [[15; 15]] ∧
  (unwritable world !! model_file stale = None →
   fs (snd s') !! model_file stale = Some (dumps booster)).
Proof.
  split; [reflexivity|].
  exact (predict_after_retrain project stale world old_booster booster five_wide []
           eq_refl eq_refl).
Defined.

(** Trained offline, served from the same disk. *)
Lemma train_then_predict_witness :
  loads (dumps booster) = Ok booster ∧
  fst (predict two_rows [] (__init__, snd (train project __init__ offline)))
  = first_pair (xgb_predict booster two_rows).
Proof.
  split; [reflexivity|].
  assert (fst (fitted_model __init__ offline) = Ok booster) as Hfit by reflexivity.
  pose proof (train_then_predict project __init__ offline booster __init__
                two_rows [] Hfit eq_refl eq_refl) as Hserve.
  apply (Hserve booster). reflexivity.
Defined.


(** A path in a directory that does not exist: the save raises. *)
Lemma save_model_last_wins_witness :
  save_model booster "nodir/model.dat" world = (Raise FileNotFoundError, world).
Proof. exact (save_model_last_wins booster booster "nodir/model.dat" world). Defined.

Lemma save_model_then_first_predict_witness :
  let w1 := snd (save_model booster "trained_ames_model.dat" offline) in
  fst (predict two_rows [] (__init__, w1)) = first_pair (xgb_predict booster two_rows) ∧
  trained_model (fst (snd (predict two_rows [] (__init__, w1)))) = Some booster.
Proof.
  apply (save_model_then_first_predict booster booster "trained_ames_model.dat"
           offline _ __init__ two_rows []).
  - reflexivity.
  - reflexivity.
  - reflexivity.
  - reflexivity.
Defined.

End MoreExamples.

Section CompleteExample.
Import Ames.
#[local] Existing Instance numpy.
#[local] Existing Instance pandas_full.
#[local] Open Scope Q_scope.

(** Four complete rows: the matrices are the [LotArea] column as it is. *)
Lemma read_input_complete_data_witness :
  read_input csv None world
  = (Ok ((full_train_X, full_train_y), (full_test_X, full_test_y), full_imputer),
     opened csv world) ∧
  Forall is_Some (statistics_ full_imputer) ∧
  check_array (take (length full_train_X) (features full_frame)) = Ok full_train_X ∧
  check_array (List.skipn (length full_train_X) (features full_frame))
    = Ok full_test_X.
Proof.
  split; [reflexivity|].
  apply (read_input_complete_data csv None world "ames" full_frame
           full_train_X full_train_y full_test_X full_test_y full_imputer
           (opened csv world)).
  - reflexivity.
  - reflexivity.
  - reflexivity.
  - repeat constructor.
  - reflexivity.
Defined.

End CompleteExample.

(** ** What [train] leaves alone *)

Section TrainEdges.
Context `{Numpy} `{!Pandas} `{!XGBoost} `{!Metrics} `{!Joblib}.
Variable GCP_PROJECT : string.

(** X19: on a machine without the data set [train] raises
    [FileNotFoundError] and leaves the world as it was: no model file, no
    upload, nothing reported. *)
Theorem train_without_data self w :
  fs w !! train_input self = None →
  train GCP_PROJECT self w = (Raise FileNotFoundError, w).
Proof.
  intros Hfile. rewrite train_unfold. unfold bind at 1, fitted_model.
  unfold bind at 1. by rewrite read_input_eq, Hfile.
Qed.

(** X20: whatever its outcome, [train] changes no local file but
    [self.model_file] and no object of any bucket but the one under the key
    [self.model_file] in the project's bucket. *)
Theorem train_frame self w :
  (∀ path, path ≠ model_file self →
           fs (snd (train GCP_PROJECT self w)) !! path = fs w !! path) ∧
  (∀ bucket key,
     (bucket, key) ≠ (GCS_BUCKET_ID GCP_PROJECT, model_file self) →
     blob_at (snd (train GCP_PROJECT self w)) bucket key = blob_at w bucket key).
Proof.
  destruct (fst (fitted_model self w)) as [model|e] eqn:Hfit.
  - destruct (unwritable w !! model_file self) as [e|] eqn:Hw.
    { destruct (train_save_raises GCP_PROJECT self w model e Hfit Hw)
        as (w0 & -> & Hfs & Hgcs).
      cbn [snd]. split; [by rewrite Hfs|].
      intros. unfold blob_at. by rewrite Hgcs. }
    destruct (train_after_fit GCP_PROJECT self w model Hfit Hw)
      as (w1 & Hfs & Hgcs & ->).
    assert (∀ bucket key, blob_at w1 bucket key = blob_at w bucket key) as Hblob
      by (intros; unfold blob_at; by rewrite Hgcs).
    assert (∀ path, path ≠ model_file self → fs w1 !! path = fs w !! path)
      as Hfiles by (intros; by rewrite Hfs, lookup_insert_ne).
    rewrite upload_file_to_gcs_eq.
    destruct (gcs w1) as [buckets|] eqn:Hg; [|done].
    destruct (buckets !! GCS_BUCKET_ID GCP_PROJECT) as [objects|] eqn:Hbk; [|done].
    destruct (fs w1 !! model_file self) as [content|]; [|done].
    cbn [snd fs]. split; [done|]. intros bucket key Hne.
    rewrite <- Hblob. unfold blob_at. rewrite Hg. cbn [gcs].
    by apply lookup_blob_insert_ne.
  - assert (∃ w0, train GCP_PROJECT self w = (Raise e, w0) ∧
                  fs w0 = fs w ∧ gcs w0 = gcs w) as (w0 & -> & Hfs & Hgcs).
    { rewrite train_unfold. unfold bind at 1.
      destruct (quiet_fitted_model self w) as (Hfs & Hgcs & Hunw & _).
      destruct (fitted_model self w) as [[m|e'] w0]; cbn [fst snd] in *; [done|].
      injection Hfit as ->. by exists w0. }
    cbn [snd]. split; [by rewrite Hfs|].
    intros. unfold blob_at. by rewrite Hgcs.
Qed.

End TrainEdges.

Section TrainExamples.
Import Ames.
#[local] Existing Instance numpy.
#[local] Existing Instance pandas.
#[local] Existing Instance xgboost.
#[local] Existing Instance metrics.
#[local] Existing Instance joblib.

(** The serving machine cannot train. *)
Lemma train_without_data_witness :
  fs serving !! train_input __init__ = None ∧
  train project __init__ serving = (Raise FileNotFoundError, serving).
Proof.
  split; [reflexivity|].
  apply (train_without_data project __init__ serving). reflexivity.
Defined.

End TrainExamples.
